(** * Crypto portfolio rebalancer: allocation drift, trade proposal, simulation

    A shallow embedding of [tracker.py] (portfolio value, current
    allocations, trade proposal) and of [simulator.py] (slippage and gas
    simulation), with the properties of the rebalance decision engine
    proved over it.

    Numbers.  The Python code computes on [float].  The embedding takes the
    exact rationals [Q] in their place: comparisons, [abs], [max] and the
    four operations are the exact ones, so rounding, infinities and NaN are
    outside the model.  Numeric equalities are stated with [==] ([Qeq]).

    Dictionaries.  [balances] and [prices] are only read with [.get] and
    summed over their key sets, so they are [gmap string Q].  [targets] is
    iterated in insertion order and that order is the order of the returned
    proposals, so it is an association list.

    Exceptions.  The only operation of the two modules that can raise on
    well-typed input is float division ([ZeroDivisionError]); the tracker is
    therefore written in a small exception monad and the theorems show that
    it returns [Ok]. *)

From Stdlib Require Import QArith Qabs Qminmax Lqa.
From stdpp Require Import gmap strings list fin_maps.

Local Open Scope Q_scope.
Local Open Scope string_scope.

(** ** Python primitives *)

Module Py.

Inductive exn : Type := ZeroDivisionError.

Inductive result (A : Type) : Type :=
| Ok (a : A)
| Raise (e : exn).
Arguments Ok {A} a.
Arguments Raise {A} e.

Definition bind {A B} (m : result A) (k : A -> result B) : result B :=
  match m with
  | Ok a => k a
  | Raise e => Raise e
  end.

(** [x < y] and [x <= y] on floats *)
Definition ltb (x y : Q) : bool := negb (Qle_bool y x).
Definition leb (x y : Q) : bool := Qle_bool x y.

(** [max(a, b)]: the first argument unless the second is strictly larger *)
Definition max (a b : Q) : Q := if ltb a b then b else a.

(** [abs(x)] *)
Definition abs (x : Q) : Q := Qabs x.

(** [x / y] on floats: raises on a zero divisor *)
Definition div (x y : Q) : result Q :=
  if Qeq_bool y 0 then Raise ZeroDivisionError else Ok (x / y).

(** [sum(xs)]: left to right from 0 *)
Definition sum (xs : list Q) : Q := fold_left Qplus xs 0.

(** [d.get(k, dflt)] on a dict *)
Definition get (d : gmap string Q) (k : string) (dflt : Q) : Q :=
  default dflt (d !! k).

(** [d.get(k, dflt)] on an insertion-ordered dict *)
Fixpoint oget (d : list (string * Q)) (k : string) (dflt : Q) : Q :=
  match d with
  | [] => dflt
  | (k', v) :: d' => if String.eqb k' k then v else oget d' k dflt
  end.

(** [list(d.keys())] *)
Definition keys (d : list (string * Q)) : list string := map fst d.

End Py.

Import Py.

Notation "'do' x <- m ; k" := (Py.bind m (fun x => k))
(at level 10, x name, m at level 100, k at level 200).

(** ** tracker.py *)

Module Tracker.

(** A trade proposal, the dict appended by [propose_rebalance_trades]. *)
Record proposal : Type := Proposal {
  token : string;
  side : string;
  amount : Q;
  value_usd : Q;
  target_allocation : Q;
  current_allocation : Q
}.

(** [sum(balances.get(t, 0.0) * prices.get(t, 0.0) for t in set(balances) | set(prices))] *)
Definition compute_portfolio_value (balances prices : gmap string Q) : Q :=
  let tokens : gset string := dom balances ∪ dom prices in
  Py.sum (map (fun t => get balances t 0 * get prices t 0) (elements tokens)).

(** [{t: body(t) for t in tokens}], filled key by key *)
Fixpoint dict_comprehension (body : string -> result Q) (tokens : list string)
    (acc : gmap string Q) : result (gmap string Q) :=
  match tokens with
  | [] => Ok acc
  | t :: rest => do v <- body t; dict_comprehension body rest (<[t := v]> acc)
  end.

Definition current_allocations (balances prices : gmap string Q)
    (tokens : list string) : result (gmap string Q) :=
  let total := compute_portfolio_value balances prices in
  if Py.leb total 0 then
    dict_comprehension (fun _ => Ok 0) tokens ∅
  else
    dict_comprehension
      (fun t => Py.div (get balances t 0 * get prices t 0) total) tokens ∅.

(** The body of the [for t in tokens] loop: [Ok None] where the source
    says [continue], [Ok (Some p)] where it appends [p] to [trades]. *)
Definition propose_body (targets : list (string * Q))
    (curr_alloc prices : gmap string Q)
    (total_value threshold_pct min_trade_usd : Q) (t : string)
    : result (option proposal) :=
  let target := oget targets t 0 in
  let current := get curr_alloc t 0 in
  let delta := target - current in
  if Py.leb total_value 0 then Ok None else
  let desired_value_change := delta * total_value in
  if Py.ltb (Py.abs desired_value_change)
            (Py.max min_trade_usd ((threshold_pct / 100) * total_value))
  then Ok None else
  let price := get prices t 0 in
  if Py.leb price 0 then Ok None else
  do amount <- Py.div (Py.abs desired_value_change) price;
  let side := if Py.ltb 0 delta then "buy" else "sell" in
  Ok (Some {| token := t;
              side := side;
              amount := amount;
              value_usd := Py.abs desired_value_change;
              target_allocation := target;
              current_allocation := current |}).

(** [for t in tokens: ...], with [trades] the list built so far *)
Fixpoint propose_loop (body : string -> result (option proposal))
    (tokens : list string) (trades : list proposal) : result (list proposal) :=
  match tokens with
  | [] => Ok trades
  | t :: rest =>
    do step <- body t;
    match step with
    | None => propose_loop body rest trades
    | Some p => propose_loop body rest (trades ++ [p])%list
    end
  end.

Definition propose_rebalance_trades (targets : list (string * Q))
    (balances prices : gmap string Q) (threshold_pct min_trade_usd : Q)
    : result (list proposal) :=
  let tokens := keys targets in
  do curr_alloc <- current_allocations balances prices tokens;
  let total_value := compute_portfolio_value balances prices in
  propose_loop
    (propose_body targets curr_alloc prices total_value threshold_pct min_trade_usd)
    tokens [].

End Tracker.

(** ** simulator.py *)

Module Simulator.

(** A trade dict as the simulator reads it: only the keys ["token"],
    ["side"] and ["amount"] are looked up, each with [.get], so an absent
    key is [None]. *)
Record trade : Type := Trade {
  tr_token : option string;
  tr_side : option string;
  tr_amount : option Q
}.

(** The dict returned by [estimate_trade]: it carries ["cost_usd"] on the
    buy branch and ["proceeds_usd"] on the other one. *)
Record trade_result : Type := TradeResult {
  res_token : option string;
  res_side : option string;
  res_amount : Q;
  res_quoted_price : Q;
  res_cost_usd : option Q;
  res_proceeds_usd : option Q
}.

Record summary : Type := Summary {
  total_buy_cost_usd : Q;
  total_sell_proceeds_usd : Q;
  net_usd_effect : Q;
  est_total_gas_usd : Q
}.

Record simulation : Type := Simulation {
  sim_trades : list trade_result;
  sim_summary : summary
}.

(** A proposal of the tracker, seen as a trade dict. *)
Definition of_proposal (p : Tracker.proposal) : trade :=
  {| tr_token := Some (Tracker.token p);
     tr_side := Some (Tracker.side p);
     tr_amount := Some (Tracker.amount p) |}.

Definition bps_to_fraction (bps : Q) : Q := Py.max (bps / 10000) 0.

(** [side == "buy"] *)
Definition is_buy (side : option string) : bool :=
  match side with
  | Some s => String.eqb s "buy"
  | None => false
  end.

Definition get_dex_quote (dex : string) (token side : option string)
    (amount price slippage_bps : Q) : Q :=
  let slip := bps_to_fraction slippage_bps in
  if is_buy side then price * (1 + slip) else price * (1 - slip).

Definition estimate_trade (tr : trade) (price slippage_bps gas_cost_usd : Q)
    (dex : string) : trade_result :=
  let side := tr_side tr in
  let amount := default 0 (tr_amount tr) in
  let quoted_price :=
    get_dex_quote dex (tr_token tr) side amount price slippage_bps in
  if is_buy side then
    let cost_usd := amount * quoted_price + gas_cost_usd in
    {| res_token := tr_token tr;
       res_side := side;
       res_amount := amount;
       res_quoted_price := quoted_price;
       res_cost_usd := Some cost_usd;
       res_proceeds_usd := None |}
  else
    let proceeds_usd := amount * quoted_price - gas_cost_usd in
    let proceeds_usd := if Py.ltb proceeds_usd 0 then 0 else proceeds_usd in
    {| res_token := tr_token tr;
       res_side := side;
       res_amount := amount;
       res_quoted_price := quoted_price;
       res_cost_usd := None;
       res_proceeds_usd := Some proceeds_usd |}.

(** The local variables of [simulate_trades] that the loop updates. *)
Record loop_state : Type := LoopState {
  results : list trade_result;
  total_buy_cost : Q;
  total_sell_proceeds : Q;
  total_gas_usd : Q
}.

Definition loop_init : loop_state :=
  {| results := []; total_buy_cost := 0; total_sell_proceeds := 0;
     total_gas_usd := 0 |}.

(** [prices.get(token, 0.0)] for the value of [tr.get("token")] *)
Definition price_of (prices : gmap string Q) (token : option string) : Q :=
  match token with
  | Some k => Py.get prices k 0
  | None => 0
  end.

(** One iteration of [for tr in trades]. *)
Definition simulate_step (prices : gmap string Q)
    (slippage_bps gas_cost_usd : Q) (dex : string)
    (st : loop_state) (tr : trade) : loop_state :=
  let token := tr_token tr in
  let price := price_of prices token in
  if Py.leb price 0 then st else
  let res := estimate_trade tr price slippage_bps gas_cost_usd dex in
  let results' := (results st ++ [res])%list in
  if is_buy (tr_side tr) then
    {| results := results';
       total_buy_cost := total_buy_cost st + default 0 (res_cost_usd res);
       total_sell_proceeds := total_sell_proceeds st;
       total_gas_usd := total_gas_usd st + gas_cost_usd |}
  else
    {| results := results';
       total_buy_cost := total_buy_cost st;
       total_sell_proceeds :=
         total_sell_proceeds st + default 0 (res_proceeds_usd res);
       total_gas_usd := total_gas_usd st + gas_cost_usd |}.

Definition simulate_loop (prices : gmap string Q)
    (slippage_bps gas_cost_usd : Q) (dex : string)
    (trades : list trade) (st : loop_state) : loop_state :=
  fold_left (simulate_step prices slippage_bps gas_cost_usd dex) trades st.

Definition simulate_trades (trades : list trade) (prices : gmap string Q)
    (slippage_bps gas_cost_usd : Q) (dex : string) : simulation :=
  let st := simulate_loop prices slippage_bps gas_cost_usd dex trades loop_init in
  {| sim_trades := results st;
     sim_summary :=
       {| total_buy_cost_usd := total_buy_cost st;
          total_sell_proceeds_usd := total_sell_proceeds st;
          net_usd_effect := total_sell_proceeds st - total_buy_cost st;
          est_total_gas_usd := total_gas_usd st |} |}.

End Simulator.

(** ** The scenario of the specification, run on the embedding *)

Module Scenario.

Definition targets : list (string * Q) := [("ETH", 1 # 2); ("USDC", 1 # 2)].
Definition balances : gmap string Q := <["ETH" := 1]> (<["USDC" := 0]> ∅).
Definition prices : gmap string Q := <["ETH" := 2000]> (<["USDC" := 1]> ∅).

(** Targets that name a token without a price. *)
Definition targets_dai : list (string * Q) := [("ETH", 1 # 2); ("DAI", 1 # 2)].

(** A wallet that holds nothing of value. *)
Definition empty_balances : gmap string Q := <["ETH" := 0]> (<["USDC" := 0]> ∅).

(** Trade dicts: a sell, and two whose side is not a side at all. *)
Definition sell_eth : Simulator.trade :=
  {| Simulator.tr_token := Some "ETH";
     Simulator.tr_side := Some "sell";
     Simulator.tr_amount := Some (1 # 2) |}.
Definition hold_eth : Simulator.trade :=
  {| Simulator.tr_token := Some "ETH";
     Simulator.tr_side := Some "hold";
     Simulator.tr_amount := Some (1 # 2) |}.
Definition sideless_eth : Simulator.trade :=
  {| Simulator.tr_token := Some "ETH";
     Simulator.tr_side := None;
     Simulator.tr_amount := Some (1 # 2) |}.

End Scenario.

(** ** Closed forms used in the statements *)

Module TrackerSpec.
Import Tracker.

(** The value held in token [t], one summand of the portfolio value. *)
Definition held_value (balances prices : gmap string Q) (t : string) : Q :=
  get balances t 0 * get prices t 0.

(** The fraction that [current_allocations] stores for a requested token. *)
Definition fraction (balances prices : gmap string Q) (t : string) : Q :=
  let total := compute_portfolio_value balances prices in
  if Py.leb total 0 then 0 else (get balances t 0 * get prices t 0) / total.

(** What the loop body appends for token [t], as a relation. *)
Definition emitted (targets : list (string * Q)) (curr_alloc prices : gmap string Q)
    (total_value threshold_pct min_trade_usd : Q) (t : string) (p : proposal) : Prop :=
  let delta := oget targets t 0 - get curr_alloc t 0 in
  0 < total_value /\
  Py.max min_trade_usd ((threshold_pct / 100) * total_value) <= Py.abs (delta * total_value) /\
  0 < get prices t 0 /\
  p = {| token := t;
         side := if Py.ltb 0 delta then "buy" else "sell";
         amount := Py.abs (delta * total_value) / get prices t 0;
         value_usd := Py.abs (delta * total_value);
         target_allocation := oget targets t 0;
         current_allocation := get curr_alloc t 0 |}.

End TrackerSpec.

Module SimulatorSpec.
Import Simulator.

(** A trade is simulated when the price of its token is positive;
    otherwise the loop [continue]s. *)
Definition priced (prices : gmap string Q) (tr : trade) : bool :=
  negb (Py.leb (price_of prices (tr_token tr)) 0).

(** The result appended for a simulated trade. *)
Definition estimate (prices : gmap string Q) (slippage_bps gas_cost_usd : Q)
    (dex : string) (tr : trade) : trade_result :=
  estimate_trade tr (price_of prices (tr_token tr)) slippage_bps gas_cost_usd dex.

(** Results of the buy branch and of the other (sell) branch. *)
Definition buy_results (rs : list trade_result) : list trade_result :=
  List.filter (fun r => is_buy (res_side r)) rs.
Definition sell_results (rs : list trade_result) : list trade_result :=
  List.filter (fun r => negb (is_buy (res_side r))) rs.

(** Sum of [cost_usd] over the buy results, of [proceeds_usd] over the sell
    results. *)
Definition sum_cost_usd (rs : list trade_result) : Q :=
  Py.sum (map (fun r => default 0 (res_cost_usd r)) (buy_results rs)).
Definition sum_proceeds_usd (rs : list trade_result) : Q :=
  Py.sum (map (fun r => default 0 (res_proceeds_usd r)) (sell_results rs)).

(** A natural number as a float. *)
Definition of_nat (n : nat) : Q := inject_Z (Z.of_nat n).

End SimulatorSpec.

(** ** The JSON configuration, as the code reads it *)

Module Config.

(** [cfg["thresholds"]]; a key that is absent is [None]. *)
Record thresholds : Type := Thresholds {
  th_rebalance_threshold_pct : option Q;
  th_min_trade_usd : option Q;
  th_slippage_tolerance_bps : option Q
}.

(** [cfg["simulation"]] *)
Record simulation_cfg : Type := SimulationCfg {
  sc_default_gas_cost_usd : option Q
}.

(** The keys of [config.json] that tracker, executor and scheduler look up,
    each with [.get]. *)
Record config : Type := Config {
  cfg_targets : option (list (string * Q));
  cfg_base_currency : option string;
  cfg_thresholds : option thresholds;
  cfg_simulation : option simulation_cfg;
  cfg_dex : option string;
  cfg_network : option string;
  cfg_wallet_address : option string
}.

(** [cfg.get("thresholds", {}).get(key, dflt)] *)
Definition threshold (cfg : config) (key : thresholds -> option Q) (dflt : Q) : Q :=
  match cfg_thresholds cfg with
  | Some th => default dflt (key th)
  | None => dflt
  end.

(** [cfg.get("simulation", {}).get("default_gas_cost_usd", dflt)] *)
Definition default_gas_cost_usd (cfg : config) (dflt : Q) : Q :=
  match cfg_simulation cfg with
  | Some sc => default dflt (sc_default_gas_cost_usd sc)
  | None => dflt
  end.

End Config.

(** ** tracker.py: wallet address and placeholder fetchers *)

Module Wallet.
Import Config.

(** Truth value of a [str] and of an [Optional[str]]: the empty string and
    [None] are false. *)
Definition truthy (s : string) : bool := negb (String.eqb s "").
Definition truthy_opt (o : option string) : bool :=
  match o with
  | Some s => truthy s
  | None => false
  end.

(** [a or b] on [Optional[str]] *)
Definition or_else (a b : option string) : option string :=
  if truthy_opt a then a else b.

(** What one call of the session provider does: it returns an
    [Optional[str]] or raises. *)
Inductive provider_outcome : Type :=
| Returns (addr : option string)
| Raises.

(** [os.getenv(name)] *)
Definition getenv (environ : gmap string string) (name : string) : option string :=
  environ !! name.

(** [session_provider] is [None] when no provider is passed, otherwise the
    outcome of the one call made to it; a raise is caught and ignored. *)
Definition resolve_wallet_address (config : config)
    (session_provider : option provider_outcome)
    (environ : gmap string string) : string :=
  let from_session :=
    match session_provider with
    | Some (Returns addr) => if truthy_opt addr then addr else None
    | Some Raises => None
    | None => None
    end in
  match from_session with
  | Some addr => addr
  | None =>
    let env_addr :=
      or_else (getenv environ "USER_WALLET_ADDRESS") (getenv environ "WALLET_ADDRESS") in
    match env_addr with
    | Some addr =>
      if truthy addr then addr
      else default "" (or_else (cfg_wallet_address config) (Some ""))
    | None => default "" (or_else (cfg_wallet_address config) (Some ""))
    end
  end.

(** [{t: 0.0 for t in tokens}] *)
Definition zeros (tokens : list string) : gmap string Q :=
  fold_left (fun d t => <[t := 0]> d) tokens ∅.

Definition fetch_balances (address : string) (tokens : list string) : gmap string Q :=
  zeros tokens.

Definition fetch_prices (tokens : list string) (base_currency : string) : gmap string Q :=
  zeros tokens.

(** [f"{w[:6]}...{w[-3:]}" if len(w) > 10 else str(w)], the expression both
    scheduler and executor use for the wallet in a message.  A string is
    read as its sequence of characters. *)
Definition short_wallet (w : string) : string :=
  if (10 <? String.length w)%nat
  then String.append (String.substring 0 6 w)
         (String.append "..." (String.substring (String.length w - 3) 3 w))
  else w.

End Wallet.

(** ** alerts.py: the arguments of one [send_alerts] call *)

Module Alerts.

Record alert_call : Type := AlertCall {
  al_wallet : string;
  al_event_type : string;
  al_alert_type : string;
  al_message : string
}.

End Alerts.

(** ** executor.py *)

Module Executor.
Import Config Wallet Alerts.

(** The fields of an [Executor] that [execute] reads. *)
Record executor : Type := MkExecutor {
  ex_network : option string;
  ex_dex : option string;
  ex_wallet_address : string;
  ex_private_key : option string
}.

(** [Executor.__init__] *)
Definition init (config : config) (session_provider : option provider_outcome)
    (environ : gmap string string) : executor :=
  {| ex_network := cfg_network config;
     ex_dex := cfg_dex config;
     ex_wallet_address := resolve_wallet_address config session_provider environ;
     ex_private_key := getenv environ "PRIVATE_KEY" |}.

(** [{**tr, "status": status, "tx_hash": tx_hash, "reason": reason}] for a
    proposal dict [tr], whose own keys are none of the three added. *)
Record execution_result : Type := ExecutionResult {
  er_trade : Tracker.proposal;
  er_status : string;
  er_tx_hash : option string;
  er_reason : option string
}.

(** [str.lower] on the ASCII letters. *)
Definition lower_ascii (c : Ascii.ascii) : Ascii.ascii :=
  let n := Ascii.nat_of_ascii c in
  if ((65 <=? n) && (n <=? 90))%nat then Ascii.ascii_of_nat (n + 32) else c.

Fixpoint lower (s : string) : string :=
  match s with
  | EmptyString => EmptyString
  | String c s' => String (lower_ascii c) (lower s')
  end.

(** [(f"USDC→{token}" if side == "buy" else f"{token}→USDC") if token else "N/A"] *)
Definition pair (side token : string) : string :=
  if truthy token then
    if String.eqb side "buy" then String.append "USDC→" token
    else String.append token "→USDC"
  else "N/A".

(** [status], [reason] and [tx_hash] of one trade.  The live branch is a
    placeholder: a log line and two assignments.  Its [except] clause, the
    only place that sets "failed", is reached only if the log call raises,
    which the model leaves out. *)
Definition decide_status (ex : executor) (dry_run : bool)
    : string * option string * option string :=
  if dry_run then ("skipped", Some "dry_run", None)
  else if negb (truthy_opt (ex_private_key ex))
  then ("skipped", Some "missing PRIVATE_KEY", None)
  else ("success", None, Some "0xPLACEHOLDER").

(** The [send_alerts] call made for one trade once its status is known. *)
Definition alert_for (ex : executor) (side token status : string)
    (reason : option string) : alert_call :=
  let short := short_wallet (ex_wallet_address ex) in
  if String.eqb status "success" then
    {| al_wallet := ex_wallet_address ex;
       al_event_type := "execution";
       al_alert_type := "success";
       al_message :=
         String.append "✅ Rebalance executed | Wallet: "
           (String.append short
              (String.append " | Trades: "
                 (String.append (pair side token) " | Status: SUCCESS"))) |}
  else if String.eqb status "failed" then
    {| al_wallet := ex_wallet_address ex;
       al_event_type := "execution";
       al_alert_type := "failure";
       al_message :=
         String.append "❌ Rebalance failed | Wallet: "
           (String.append short
              (String.append " | Reason: "
                 (default "" (or_else reason (Some "unknown error"))))) |}
  else
    {| al_wallet := ex_wallet_address ex;
       al_event_type := "execution";
       al_alert_type := "skipped";
       al_message :=
         String.append "⚠️ Rebalance skipped | Wallet: "
           (String.append short
              (String.append " | "
                 (default "" (or_else reason (Some "Deviation below threshold"))))) |}.

(** One iteration of [for tr in trades]: the result appended and the alert
    sent. *)
Definition execute_one (ex : executor) (dry_run : bool) (tr : Tracker.proposal)
    : execution_result * alert_call :=
  let side := lower (Tracker.side tr) in
  let token := Tracker.token tr in
  let '(status, reason, tx_hash) := decide_status ex dry_run in
  ({| er_trade := tr; er_status := status; er_tx_hash := tx_hash;
      er_reason := reason |},
   alert_for ex side token status reason).

(** [Executor.execute]: the list it returns and, beside it, the
    [send_alerts] calls it makes, in order.  Log lines and the documents
    written to the [executed_trades] collection are not part of the model;
    a failure of either write or of an alert is caught by the source and
    does not change what is returned. *)
Definition execute (ex : executor) (trades : list Tracker.proposal) (dry_run : bool)
    : list execution_result * list alert_call :=
  fold_left
    (fun '(results, alerts) tr =>
       let '(result, alert) := execute_one ex dry_run tr in
       (results ++ [result], alerts ++ [alert])%list)
    trades ([], []).

End Executor.

(** ** scheduler.py *)

Module Scheduler.
Import Config Wallet Alerts Executor.

(** The document handed to [_save_simulation], without its timestamp. *)
Record sim_doc : Type := SimDoc {
  sd_wallet : string;
  sd_tokens : list string;
  sd_trades : list Tracker.proposal;
  sd_summary : Simulator.summary;
  sd_status : string;
  sd_viable : bool;
  sd_reason : option string
}.

(** How [run_once] ends: with the skipped alert, or with the executor's
    results and alerts. *)
Inductive outcome : Type :=
| Skipped (alert : alert_call)
| Executed (results : list execution_result) (alerts : list alert_call).

Record run : Type := Run {
  run_total_value : Q;
  run_doc : sim_doc;
  run_outcome : outcome
}.

(** [run_once] from the portfolio value on, for the tokens, prices, wallet
    address and balances obtained before.  [session_provider] is [None] or
    the outcome of the call that [Executor.__init__] makes. *)
Definition run_cycle (cfg : config) (dry_run : bool)
    (session_provider : option provider_outcome) (environ : gmap string string)
    (tokens : list string) (prices : gmap string Q) (wallet_address : string)
    (balances : gmap string Q) : result run :=
  let total_value :=
    Py.sum (map (fun t => get balances t 0 * get prices t 0)
                (elements (dom balances ∪ dom prices : gset string))) in
  let threshold_pct := threshold cfg th_rebalance_threshold_pct (5 # 2) in
  let min_trade_usd := threshold cfg th_min_trade_usd 100 in
  do trades <- Tracker.propose_rebalance_trades (default [] (cfg_targets cfg))
                 balances prices threshold_pct min_trade_usd;
  let sim :=
    Simulator.simulate_trades (map Simulator.of_proposal trades) prices
      (threshold cfg th_slippage_tolerance_bps 50)
      (default_gas_cost_usd cfg 5)
      (default "uniswap_v2" (cfg_dex cfg)) in
  let no_trades := match trades with [] => true | _ => false end in
  let doc :=
    {| sd_wallet := wallet_address;
       sd_tokens := tokens;
       sd_trades := trades;
       sd_summary := Simulator.sim_summary sim;
       sd_status := if no_trades then "skipped" else "proposed";
       sd_viable := negb no_trades;
       sd_reason :=
         if no_trades
         then Some "no trades proposed (below thresholds or no deviation)"
         else None |} in
  if no_trades then
    let short := short_wallet wallet_address in
    let message :=
      String.append "⚠️ Rebalance skipped | Wallet: "
        (String.append short " | Deviation below threshold") in
    Ok {| run_total_value := total_value;
          run_doc := doc;
          run_outcome :=
            Skipped {| al_wallet := wallet_address;
                       al_event_type := "simulation";
                       al_alert_type := "skipped";
                       al_message := message |} |}
  else
    let execu := Executor.init cfg session_provider environ in
    let '(results, alerts) := Executor.execute execu trades dry_run in
    Ok {| run_total_value := total_value;
          run_doc := doc;
          run_outcome := Executed results alerts |}.

(** [run_once].  [session_provider] is [None] or gives the outcome of each
    call of the provider, numbered from 0. *)
Definition run_once (cfg : config) (dry_run : bool)
    (session_provider : option (nat -> provider_outcome))
    (environ : gmap string string) : result run :=
  let tokens := keys (default [] (cfg_targets cfg)) in
  let prices := fetch_prices tokens (default "USD" (cfg_base_currency cfg)) in
  let wallet_address :=
    resolve_wallet_address cfg (option_map (fun call => call 0%nat) session_provider)
                           environ in
  let balances := fetch_balances wallet_address tokens in
  run_cycle cfg dry_run (option_map (fun call => call 1%nat) session_provider)
            environ tokens prices wallet_address balances.

End Scheduler.

(** ** Facts about the Python primitives *)

Section PyFacts.

Lemma ltb_true x y : Py.ltb x y = true <-> x < y.
Proof.
  unfold Py.ltb. rewrite negb_true_iff, <- not_true_iff_false, Qle_bool_iff.
  split; [apply Qnot_le_lt | apply Qlt_not_le].
Qed.

Lemma ltb_false x y : Py.ltb x y = false <-> y <= x.
Proof. unfold Py.ltb. rewrite negb_false_iff. apply Qle_bool_iff. Qed.

Lemma leb_true x y : Py.leb x y = true <-> x <= y.
Proof. apply Qle_bool_iff. Qed.

Lemma leb_false x y : Py.leb x y = false <-> y < x.
Proof.
  unfold Py.leb. rewrite <- not_true_iff_false, Qle_bool_iff.
  split; [apply Qnot_le_lt | apply Qlt_not_le].
Qed.

Lemma max_Qmax a b : Py.max a b == Qmax a b.
Proof.
  unfold Py.max. destruct (Py.ltb a b) eqn:E.
  - apply ltb_true in E. symmetry. apply Q.max_r. lra.
  - apply ltb_false in E. symmetry. apply Q.max_l. exact E.
Qed.

Lemma max_l a b : a <= Py.max a b.
Proof.
  unfold Py.max. destruct (Py.ltb a b) eqn:E.
  - apply ltb_true in E. lra.
  - lra.
Qed.

Lemma max_r a b : b <= Py.max a b.
Proof.
  unfold Py.max. destruct (Py.ltb a b) eqn:E.
  - lra.
  - apply ltb_false in E. lra.
Qed.

Lemma max_lub a b c : a <= c -> b <= c -> Py.max a b <= c.
Proof. unfold Py.max. destruct (Py.ltb a b); auto. Qed.

Lemma max_mono a b a' b' : a <= a' -> b <= b' -> Py.max a b <= Py.max a' b'.
Proof.
  intros Ha Hb. apply max_lub.
  - pose proof (max_l a' b'). lra.
  - pose proof (max_r a' b'). lra.
Qed.

Lemma abs_nonneg x : 0 <= Py.abs x.
Proof. apply Qabs_nonneg. Qed.

Lemma abs_pos x : ~ x == 0 -> 0 < Py.abs x.
Proof.
  intros Hx. unfold Py.abs. apply Qabs_case; intros; lra.
Qed.

Lemma div_ok x y : ~ y == 0 -> Py.div x y = Ok (x / y).
Proof.
  intros Hy. unfold Py.div. destruct (Qeq_bool y 0) eqn:E; [|reflexivity].
  apply Qeq_bool_iff in E. contradiction.
Qed.

Lemma fold_left_Qplus xs a : fold_left Qplus xs a == a + Py.sum xs.
Proof.
  unfold Py.sum. revert a. induction xs as [|x xs IH]; intros a; simpl.
  - lra.
  - rewrite (IH (a + x)), (IH (0 + x)). lra.
Qed.

Lemma sum_nil : Py.sum [] == 0.
Proof. reflexivity. Qed.

Lemma sum_cons x xs : Py.sum (x :: xs) == x + Py.sum xs.
Proof.
  unfold Py.sum at 1. simpl. rewrite fold_left_Qplus. lra.
Qed.

Lemma sum_app xs ys : Py.sum (xs ++ ys) == Py.sum xs + Py.sum ys.
Proof.
  induction xs as [|x xs IH]; simpl.
  - rewrite sum_nil. lra.
  - rewrite !sum_cons, IH. lra.
Qed.

Lemma sum_nonneg xs : Forall (fun x => 0 <= x) xs -> 0 <= Py.sum xs.
Proof.
  induction 1 as [|x xs Hx _ IH].
  - rewrite sum_nil. lra.
  - rewrite sum_cons. lra.
Qed.

Lemma sum_Permutation xs ys : xs ≡ₚ ys -> Py.sum xs == Py.sum ys.
Proof.
  induction 1 as [|x xs ys _ IH|x y xs|xs ys zs _ IH1 _ IH2].
  - reflexivity.
  - rewrite !sum_cons, IH. reflexivity.
  - rewrite !sum_cons. lra.
  - rewrite IH1. exact IH2.
Qed.

Lemma sum_map_scale {A} (g : A -> Q) (c : Q) (l : list A) :
  ~ c == 0 -> Py.sum (map (fun x => g x / c) l) == Py.sum (map g l) / c.
Proof.
  intros Hc. induction l as [|x l IH]; simpl.
  - rewrite !sum_nil. field. exact Hc.
  - rewrite !sum_cons, IH. field. exact Hc.
Qed.

(** Summing a non-negative weight over a duplicate-free list [L] gives at
    most its sum over [U], when the weight vanishes on [L] outside [U]. *)
Lemma sum_map_le (g : string -> Q) (L : list string) :
  NoDup L -> (forall x, 0 <= g x) ->
  forall U : list string,
    (forall x, x ∈ L -> x ∉ U -> g x == 0) ->
    Py.sum (map g L) <= Py.sum (map g U).
Proof.
  intros HL Hg. induction HL as [|k L Hk HL IH]; intros U HU; simpl.
  - rewrite sum_nil. apply sum_nonneg, Forall_forall.
    intros y Hy. apply list_elem_of_In, in_map_iff in Hy as [x [<- _]]. apply Hg.
  - rewrite sum_cons. destruct (decide (k ∈ U)) as [Hin|Hnin].
    + apply elem_of_Permutation in Hin as [U' HU'].
      rewrite (sum_Permutation (map g U) (map g (k :: U'))) by (by apply Permutation_map).
      simpl. rewrite sum_cons.
      assert (Py.sum (map g L) <= Py.sum (map g U')); [|lra].
      apply IH. intros x HxL HxU'. apply HU.
      * by right.
      * rewrite HU'. intros [->|?]%elem_of_cons; contradiction.
    + rewrite (HU k) by (done || by left).
      assert (Py.sum (map g L) <= Py.sum (map g U)); [|lra].
      apply IH. intros x HxL HxU. apply HU; [by right | done].
Qed.

End PyFacts.

(** ** Facts about tracker.py *)

Module TrackerFacts.
Import Tracker TrackerSpec.

Lemma dict_comprehension_spec (f : string -> Q) (body : string -> result Q)
    (tokens : list string) :
  (forall t, body t = Ok (f t)) ->
  forall acc : gmap string Q, exists m : gmap string Q,
    dict_comprehension body tokens acc = Ok m /\
    forall k, m !! k = if decide (k ∈ tokens) then Some (f k) else acc !! k.
Proof.
  intros Hbody. induction tokens as [|t rest IH]; intros acc; simpl.
  - exists acc. split; [reflexivity|]. intros k.
    destruct (decide (k ∈ [])) as [Hin|_]; [|reflexivity].
    by apply not_elem_of_nil in Hin.
  - rewrite Hbody. simpl. destruct (IH (<[t := f t]> acc)) as [m [Hm Hlook]].
    exists m. split; [exact Hm|]. intros k. rewrite Hlook.
    destruct (decide (k ∈ rest)) as [Hin|Hnin].
    + rewrite decide_True; [reflexivity | by right].
    + destruct (decide (k = t)) as [->|Hne].
      * rewrite lookup_insert_eq, decide_True; [reflexivity | by left].
      * rewrite lookup_insert_ne by done.
        rewrite decide_False; [reflexivity|].
        intros [?|?]%elem_of_cons; contradiction.
Qed.

Lemma current_allocations_spec (balances prices : gmap string Q) (tokens : list string) :
  exists m : gmap string Q,
    current_allocations balances prices tokens = Ok m /\
    forall k, m !! k =
              if decide (k ∈ tokens) then Some (fraction balances prices k) else None.
Proof.
  unfold current_allocations, fraction.
  destruct (Py.leb (compute_portfolio_value balances prices) 0) eqn:E.
  - destruct (dict_comprehension_spec (fun _ => 0) (fun _ => Ok 0) tokens
                (fun _ => eq_refl) ∅) as [m [Hm Hlook]].
    exists m. split; [exact Hm|]. intros k. rewrite Hlook.
    destruct (decide (k ∈ tokens)); [reflexivity | apply lookup_empty].
  - apply leb_false in E.
    set (total := compute_portfolio_value balances prices) in *.
    destruct (dict_comprehension_spec
                (fun t => get balances t 0 * get prices t 0 / total)
                (fun t => Py.div (get balances t 0 * get prices t 0) total) tokens)
      with (acc := (∅ : gmap string Q)) as [m [Hm Hlook]].
    { intros t. apply div_ok. lra. }
    exists m. split; [exact Hm|]. intros k. rewrite Hlook.
    destruct (decide (k ∈ tokens)); [reflexivity | apply lookup_empty].
Qed.

Lemma propose_body_ok targets curr_alloc prices total_value threshold_pct min_trade_usd t :
  exists step,
    propose_body targets curr_alloc prices total_value threshold_pct min_trade_usd t
    = Ok step.
Proof.
  unfold propose_body.
  destruct (Py.leb total_value 0); [by eexists|].
  destruct (Py.ltb _ _); [by eexists|].
  destruct (Py.leb (get prices t 0) 0) eqn:E; [by eexists|].
  apply leb_false in E. rewrite div_ok by lra. by eexists.
Qed.

Lemma propose_body_Some targets curr_alloc prices total_value threshold_pct min_trade_usd t p :
  propose_body targets curr_alloc prices total_value threshold_pct min_trade_usd t
  = Ok (Some p) <->
  emitted targets curr_alloc prices total_value threshold_pct min_trade_usd t p.
Proof.
  unfold propose_body, emitted.
  destruct (Py.leb total_value 0) eqn:Et.
  { apply leb_true in Et. split; [discriminate | intros [? _]; lra]. }
  apply leb_false in Et.
  destruct (Py.ltb _ _) eqn:Eg.
  { apply ltb_true in Eg. split; [discriminate | intros (_ & ? & _); lra]. }
  apply ltb_false in Eg.
  destruct (Py.leb (get prices t 0) 0) eqn:Ep.
  { apply leb_true in Ep. split; [discriminate | intros (_ & _ & ? & _); lra]. }
  apply leb_false in Ep. rewrite div_ok by lra. simpl.
  split.
  - intros [= <-]. repeat split; assumption.
  - intros (_ & _ & _ & ->). reflexivity.
Qed.

Lemma propose_loop_spec (body : string -> result (option proposal)) (tokens : list string) :
  (forall t, exists step, body t = Ok step) ->
  forall acc, exists out,
    propose_loop body tokens acc = Ok (acc ++ out)%list /\
    forall p, p ∈ out <-> exists t, t ∈ tokens /\ body t = Ok (Some p).
Proof.
  intros Hok. induction tokens as [|t rest IH]; intros acc; simpl.
  - exists []. rewrite app_nil_r. split; [reflexivity|].
    intros p. split.
    + intros Hin. by apply not_elem_of_nil in Hin.
    + intros (t & Hin & _). by apply not_elem_of_nil in Hin.
  - destruct (Hok t) as [[q|] Hq]; rewrite Hq; simpl.
    + destruct (IH (acc ++ [q])%list) as [out [Hout Hmem]].
      exists (q :: out). split.
      { rewrite Hout. by rewrite <- app_assoc. }
      intros p. rewrite elem_of_cons, Hmem. split.
      * intros [->|(t' & Hin & Hb)]; [exists t | exists t'].
        -- split; [by left | done].
        -- split; [by right | done].
      * intros (t' & [->|Hin]%elem_of_cons & Hb).
        -- left. congruence.
        -- right. by exists t'.
    + destruct (IH acc) as [out [Hout Hmem]].
      exists out. split; [exact Hout|].
      intros p. rewrite Hmem. split.
      * intros (t' & Hin & Hb). exists t'. split; [by right | done].
      * intros (t' & [->|Hin]%elem_of_cons & Hb); [congruence|].
        by exists t'.
Qed.

(** The returned list holds exactly what the loop body emits for the keys
    of [targets], computed against the allocations of the same inputs. *)
Lemma propose_rebalance_trades_spec targets balances prices threshold_pct min_trade_usd :
  exists (curr_alloc : gmap string Q) (trades : list proposal),
    current_allocations balances prices (keys targets) = Ok curr_alloc /\
    (forall k, curr_alloc !! k =
               if decide (k ∈ keys targets)
               then Some (fraction balances prices k) else None) /\
    propose_rebalance_trades targets balances prices threshold_pct min_trade_usd
    = Ok trades /\
    forall p, p ∈ trades <->
              exists t, t ∈ keys targets /\
                        emitted targets curr_alloc prices
                                (compute_portfolio_value balances prices)
                                threshold_pct min_trade_usd t p.
Proof.
  destruct (current_allocations_spec balances prices (keys targets))
    as [m [Hm Hlook]].
  destruct (propose_loop_spec
              (propose_body targets m prices (compute_portfolio_value balances prices)
                            threshold_pct min_trade_usd)
              (keys targets)
              (propose_body_ok targets m prices _ threshold_pct min_trade_usd) [])
    as [out [Hout Hmem]].
  exists m, out. split; [exact Hm|]. split; [exact Hlook|]. split.
  - unfold propose_rebalance_trades. rewrite Hm. simpl. exact Hout.
  - intros p. rewrite Hmem. split; intros (t & Hin & Hb); exists t;
      (split; [exact Hin|]); by apply propose_body_Some.
Qed.

End TrackerFacts.

(** ** The trade proposer *)

Import Tracker TrackerSpec TrackerFacts.



(** C2.  When the portfolio value (the sum of balance x price over the
    tokens of either map, 0 for a missing entry) is not positive, no trade
    is proposed and every requested token is allocated exactly 0. *)
Theorem nonpositive_value_yields_nothing
    targets balances prices threshold_pct min_trade_usd (tokens : list string) :
  compute_portfolio_value balances prices <= 0 ->
  propose_rebalance_trades targets balances prices threshold_pct min_trade_usd
  = Ok [] /\
  exists allocs : gmap string Q,
    current_allocations balances prices tokens = Ok allocs /\
    forall t, t ∈ tokens -> allocs !! t = Some 0.
Proof.
  intros Htotal. split.
  - destruct (propose_rebalance_trades_spec targets balances prices threshold_pct
                min_trade_usd) as (m & trades & _ & _ & Htr & Hmem).
    rewrite Htr. destruct trades as [|p trades]; [reflexivity|].
    destruct (proj1 (Hmem p)) as (t & _ & Hpos & _); [by left | lra].
  - destruct (current_allocations_spec balances prices tokens) as [m [Hm Hlook]].
    exists m. split; [exact Hm|]. intros t Ht.
    rewrite Hlook, decide_True by exact Ht. unfold fraction.
    apply leb_true in Htotal. by rewrite Htotal.
Qed.

Lemma nonpositive_value_yields_nothing_scenario :
  compute_portfolio_value Scenario.empty_balances Scenario.prices <= 0 /\
  propose_rebalance_trades Scenario.targets Scenario.empty_balances Scenario.prices
                           (5 # 2) 100
  = Ok [] /\
  exists allocs : gmap string Q,
    current_allocations Scenario.empty_balances Scenario.prices ["ETH"; "USDC"]
    = Ok allocs /\
    forall t, t ∈ ["ETH"; "USDC"] -> allocs !! t = Some 0.
Proof.
  assert (H : compute_portfolio_value Scenario.empty_balances Scenario.prices <= 0)
    by (vm_compute; discriminate).
  split; [exact H|].
  exact (nonpositive_value_yields_nothing
           Scenario.targets Scenario.empty_balances Scenario.prices (5 # 2) 100
           ["ETH"; "USDC"] H).
Defined.

(** C5.  Raising [threshold_pct] with everything else fixed, or raising
    [min_trade_usd] with everything else fixed, never adds a token: the
    tokens proposed at the higher threshold are among those proposed at the
    lower one. *)
Theorem threshold_monotonicity
    targets balances prices pct1 pct2 min1 min2 :
  pct1 <= pct2 ->
  min1 <= min2 ->
  (exists lo hi,
     propose_rebalance_trades targets balances prices pct1 min1 = Ok lo /\
     propose_rebalance_trades targets balances prices pct2 min1 = Ok hi /\
     forall t, t ∈ map token hi -> t ∈ map token lo) /\
  (exists lo hi,
     propose_rebalance_trades targets balances prices pct1 min1 = Ok lo /\
     propose_rebalance_trades targets balances prices pct1 min2 = Ok hi /\
     forall t, t ∈ map token hi -> t ∈ map token lo).
Proof.
  intros Hpct Hmin.
  assert (Hgen : forall pa pb ma mb, pa <= pb -> ma <= mb ->
            exists lo hi,
              propose_rebalance_trades targets balances prices pa ma = Ok lo /\
              propose_rebalance_trades targets balances prices pb mb = Ok hi /\
              forall t, t ∈ map token hi -> t ∈ map token lo).
  { intros pa pb ma mb Hp Hm.
    destruct (propose_rebalance_trades_spec targets balances prices pa ma)
      as (m & lo & Hca & _ & Hlo & Hmem_lo).
    destruct (propose_rebalance_trades_spec targets balances prices pb mb)
      as (m' & hi & Hca' & _ & Hhi & Hmem_hi).
    assert (m' = m) as -> by congruence.
    exists lo, hi. split; [exact Hlo|]. split; [exact Hhi|].
    intros t Ht. apply list_elem_of_In, in_map_iff in Ht as (p & <- & Hp_in).
    apply list_elem_of_In, in_map_iff. exists p. split; [reflexivity|].
    apply list_elem_of_In, Hmem_lo. apply list_elem_of_In, Hmem_hi in Hp_in as (t & Hin & Hem).
    exists t. split; [exact Hin|].
    destruct Hem as (Htot & Hfloor & Hprice & Heq).
    repeat split; [exact Htot | | exact Hprice | exact Heq].
    eapply Qle_trans; [|exact Hfloor].
    apply max_mono; [exact Hm|].
    apply Qmult_le_compat_r; [|lra].
    apply Qmult_le_compat_r; [exact Hp|]. apply Qlt_le_weak. reflexivity. }
  split; apply Hgen; lra.
Qed.

Lemma threshold_monotonicity_scenario :
  1 <= 5 # 2 /\
  50 <= 100 /\
  (exists lo hi,
     propose_rebalance_trades Scenario.targets Scenario.balances Scenario.prices 1 50
     = Ok lo /\
     propose_rebalance_trades Scenario.targets Scenario.balances Scenario.prices
                              (5 # 2) 50
     = Ok hi /\
     forall t, t ∈ map token hi -> t ∈ map token lo) /\
  (exists lo hi,
     propose_rebalance_trades Scenario.targets Scenario.balances Scenario.prices 1 50
     = Ok lo /\
     propose_rebalance_trades Scenario.targets Scenario.balances Scenario.prices 1 100
     = Ok hi /\
     forall t, t ∈ map token hi -> t ∈ map token lo).
Proof.
  assert (H1 : 1 <= 5 # 2) by (vm_compute; discriminate).
  assert (H2 : 50 <= 100) by (vm_compute; discriminate).
  split; [exact H1|]. split; [exact H2|].
  exact (threshold_monotonicity
           Scenario.targets Scenario.balances Scenario.prices 1 (5 # 2) 50 100 H1 H2).
Defined.



(** ** The allocation calculator *)

Section Allocations.

Variables balances prices : gmap string Q.
Hypothesis balances_nonneg : forall t q, balances !! t = Some q -> 0 <= q.
Hypothesis prices_nonneg : forall t q, prices !! t = Some q -> 0 <= q.

Local Abbreviation held := (held_value balances prices).

Lemma held_value_nonneg t : 0 <= held t.
Proof.
  unfold held_value, get. apply Qmult_le_0_compat.
  - destruct (balances !! t) as [q|] eqn:E; simpl; [by eapply balances_nonneg | lra].
  - destruct (prices !! t) as [q|] eqn:E; simpl; [by eapply prices_nonneg | lra].
Qed.

Lemma portfolio_value_nonneg : 0 <= compute_portfolio_value balances prices.
Proof.
  unfold compute_portfolio_value. apply sum_nonneg, Forall_forall.
  intros y Hy. apply list_elem_of_In, in_map_iff in Hy as [x [<- _]].
  apply held_value_nonneg.
Qed.

Lemma held_value_sum_le (L : list string) :
  NoDup L -> Py.sum (map held L) <= compute_portfolio_value balances prices.
Proof.
  intros HL. unfold compute_portfolio_value.
  apply (sum_map_le held L HL held_value_nonneg).
  intros x _ Hx. unfold held_value, get.
  rewrite elem_of_elements, elem_of_union, !elem_of_dom in Hx.
  destruct (balances !! x) as [q|] eqn:E; simpl.
  - exfalso. apply Hx. left. by eexists.
  - lra.
Qed.

Lemma fraction_range t :
  0 <= fraction balances prices t /\ fraction balances prices t <= 1.
Proof.
  unfold fraction. destruct (Py.leb _ 0) eqn:E; [lra|].
  apply leb_false in E. pose proof (held_value_nonneg t) as Hnn.
  pose proof (held_value_sum_le [t]) as Hle.
  cbn [map] in Hle. rewrite sum_cons, sum_nil in Hle.
  specialize (Hle ltac:(apply NoDup_singleton)).
  fold (held t). split.
  - apply Qle_shift_div_l; [exact E | lra].
  - apply Qle_shift_div_r; [exact E | lra].
Qed.

Lemma fraction_sum_le (L : list string) :
  NoDup L -> Py.sum (map (fraction balances prices) L) <= 1.
Proof.
  intros HL. unfold fraction. destruct (Py.leb _ 0) eqn:E.
  - assert (Py.sum (map (fun _ : string => 0) L) == 0) as ->; [|lra].
    clear HL. induction L as [|x L IH]; simpl; [reflexivity|].
    rewrite sum_cons, IH. lra.
  - apply leb_false in E.
    change (Py.sum (map (fun t => held t / compute_portfolio_value balances prices) L)
            <= 1).
    rewrite sum_map_scale by lra.
    apply Qle_shift_div_r; [exact E|].
    pose proof (held_value_sum_le L HL). lra.
Qed.

End Allocations.



(** ** Facts about simulator.py *)

Module SimulatorFacts.
Import Simulator SimulatorSpec.

Lemma is_buy_false side : is_buy side = false <-> side <> Some "buy".
Proof.
  destruct side as [s|]; simpl.
  - rewrite String.eqb_neq. split; [congruence | intros H ->; by apply H].
  - split; [discriminate | reflexivity].
Qed.

Lemma is_buy_true side : is_buy side = true <-> side = Some "buy".
Proof.
  destruct side as [s|]; simpl.
  - rewrite String.eqb_eq. split; congruence.
  - split; discriminate.
Qed.

Lemma priced_true prices tr :
  priced prices tr = true <-> 0 < price_of prices (tr_token tr).
Proof. unfold priced. rewrite negb_true_iff. apply leb_false. Qed.

Lemma priced_false prices tr :
  priced prices tr = false <-> price_of prices (tr_token tr) <= 0.
Proof. unfold priced. rewrite negb_false_iff. apply leb_true. Qed.

Lemma bps_to_fraction_Qmax bps : bps_to_fraction bps == Qmax (bps / 10000) 0.
Proof. apply max_Qmax. Qed.

Lemma bps_to_fraction_nonneg bps : 0 <= bps -> bps_to_fraction bps == bps / 10000.
Proof.
  intros H. rewrite bps_to_fraction_Qmax. apply Q.max_l.
  apply Qle_shift_div_l; [reflexivity | lra].
Qed.

Lemma bps_to_fraction_neg bps : bps <= 0 -> bps_to_fraction bps == 0.
Proof.
  intros H. rewrite bps_to_fraction_Qmax. apply Q.max_r.
  apply Qle_shift_div_r; [reflexivity | lra].
Qed.

(** The step taken for a trade without a usable price, and for one with. *)
Lemma simulate_step_dropped prices slippage_bps gas_cost_usd dex st tr :
  priced prices tr = false ->
  simulate_step prices slippage_bps gas_cost_usd dex st tr = st.
Proof.
  intros H. unfold simulate_step. unfold priced in H.
  apply negb_false_iff in H. by rewrite H.
Qed.

Lemma simulate_step_priced prices slippage_bps gas_cost_usd dex st tr :
  priced prices tr = true ->
  let res := estimate prices slippage_bps gas_cost_usd dex tr in
  let st' := simulate_step prices slippage_bps gas_cost_usd dex st tr in
  results st' = (results st ++ [res])%list /\
  total_gas_usd st' = total_gas_usd st + gas_cost_usd /\
  (is_buy (tr_side tr) = true ->
   total_buy_cost st' = total_buy_cost st + default 0 (res_cost_usd res) /\
   total_sell_proceeds st' = total_sell_proceeds st) /\
  (is_buy (tr_side tr) = false ->
   total_buy_cost st' = total_buy_cost st /\
   total_sell_proceeds st' = total_sell_proceeds st + default 0 (res_proceeds_usd res)).
Proof.
  intros H. unfold simulate_step, estimate. unfold priced in H.
  apply negb_true_iff in H. rewrite H.
  destruct (is_buy (tr_side tr)); simpl; repeat split; intros; discriminate.
Qed.

Lemma estimate_side prices slippage_bps gas_cost_usd dex tr :
  res_side (estimate prices slippage_bps gas_cost_usd dex tr) = tr_side tr.
Proof. unfold estimate, estimate_trade. by destruct (is_buy (tr_side tr)). Qed.

Lemma simulate_loop_filter prices slippage_bps gas_cost_usd dex trades :
  forall st,
    simulate_loop prices slippage_bps gas_cost_usd dex trades st =
    simulate_loop prices slippage_bps gas_cost_usd dex
                  (List.filter (priced prices) trades) st.
Proof.
  unfold simulate_loop. induction trades as [|tr trades IH]; intros st; simpl.
  - reflexivity.
  - destruct (priced prices tr) eqn:E; simpl.
    + apply IH.
    + rewrite simulate_step_dropped by exact E. apply IH.
Qed.

Lemma sum_cost_usd_snoc rs r :
  sum_cost_usd (rs ++ [r]) ==
  sum_cost_usd rs + (if is_buy (res_side r) then default 0 (res_cost_usd r) else 0).
Proof.
  unfold sum_cost_usd, buy_results. rewrite List.filter_app, List.map_app, sum_app. simpl.
  destruct (is_buy (res_side r)); simpl; [rewrite sum_cons|]; rewrite sum_nil; lra.
Qed.

Lemma sum_proceeds_usd_snoc rs r :
  sum_proceeds_usd (rs ++ [r]) ==
  sum_proceeds_usd rs + (if is_buy (res_side r) then 0 else default 0 (res_proceeds_usd r)).
Proof.
  unfold sum_proceeds_usd, sell_results. rewrite List.filter_app, List.map_app, sum_app. simpl.
  destruct (is_buy (res_side r)); simpl; [|rewrite sum_cons]; rewrite sum_nil; lra.
Qed.

(** Loop invariant of [simulate_trades]: the results are the estimates of the
    priced trades, in order, and each running total is the matching sum over
    the results. *)
Lemma simulate_loop_spec prices slippage_bps gas_cost_usd dex trades :
  forall st,
    total_buy_cost st == sum_cost_usd (results st) ->
    total_sell_proceeds st == sum_proceeds_usd (results st) ->
    total_gas_usd st == gas_cost_usd * of_nat (length (results st)) ->
    let st' := simulate_loop prices slippage_bps gas_cost_usd dex trades st in
    results st' =
      (results st ++
       map (estimate prices slippage_bps gas_cost_usd dex)
           (List.filter (priced prices) trades))%list /\
    total_buy_cost st' == sum_cost_usd (results st') /\
    total_sell_proceeds st' == sum_proceeds_usd (results st') /\
    total_gas_usd st' == gas_cost_usd * of_nat (length (results st')).
Proof.
  unfold simulate_loop. induction trades as [|tr trades IH]; intros st Hb Hs Hg; simpl.
  - rewrite app_nil_r. auto.
  - destruct (priced prices tr) eqn:E.
    + destruct (simulate_step_priced prices slippage_bps gas_cost_usd dex st tr E)
        as (Hres & Hgas & Hbuy & Hsell).
      set (st1 := simulate_step prices slippage_bps gas_cost_usd dex st tr) in *.
      set (res := estimate prices slippage_bps gas_cost_usd dex tr) in *.
      assert (Hside : res_side res = tr_side tr) by apply estimate_side.
      destruct (IH st1) as (Hr & Hb' & Hs' & Hg').
      * rewrite Hres, sum_cost_usd_snoc, Hside.
        destruct (is_buy (tr_side tr)) eqn:Eb.
        -- destruct (Hbuy eq_refl) as [-> _]. rewrite Hb. reflexivity.
        -- destruct (Hsell eq_refl) as [-> _]. rewrite Hb. lra.
      * rewrite Hres, sum_proceeds_usd_snoc, Hside.
        destruct (is_buy (tr_side tr)) eqn:Eb.
        -- destruct (Hbuy eq_refl) as [_ ->]. rewrite Hs. lra.
        -- destruct (Hsell eq_refl) as [_ ->]. rewrite Hs. reflexivity.
      * rewrite Hres, Hgas, Hg, length_app. simpl. unfold of_nat.
        rewrite Nat2Z.inj_add, inject_Z_plus.
        change (inject_Z (Z.of_nat (length [res]))) with 1. ring.
      * split; [|auto]. rewrite Hr, Hres, <- app_assoc. reflexivity.
    + rewrite simulate_step_dropped by exact E. by apply IH.
Qed.

Lemma simulate_trades_spec trades prices slippage_bps gas_cost_usd dex :
  let sim := simulate_trades trades prices slippage_bps gas_cost_usd dex in
  sim_trades sim =
    map (estimate prices slippage_bps gas_cost_usd dex)
        (List.filter (priced prices) trades) /\
  total_buy_cost_usd (sim_summary sim) == sum_cost_usd (sim_trades sim) /\
  total_sell_proceeds_usd (sim_summary sim) == sum_proceeds_usd (sim_trades sim) /\
  est_total_gas_usd (sim_summary sim)
  == gas_cost_usd * of_nat (length (sim_trades sim)).
Proof.
  unfold simulate_trades. cbn [sim_trades sim_summary total_buy_cost_usd
    total_sell_proceeds_usd est_total_gas_usd].
  apply (simulate_loop_spec prices slippage_bps gas_cost_usd dex trades loop_init);
    simpl; try reflexivity.
  unfold of_nat, inject_Z. simpl. ring.
Qed.

Lemma estimate_token prices slippage_bps gas_cost_usd dex tr :
  res_token (estimate prices slippage_bps gas_cost_usd dex tr) = tr_token tr.
Proof. unfold estimate, estimate_trade. by destruct (is_buy (tr_side tr)). Qed.

Lemma estimate_amount prices slippage_bps gas_cost_usd dex tr :
  res_amount (estimate prices slippage_bps gas_cost_usd dex tr)
  = default 0 (tr_amount tr).
Proof. unfold estimate, estimate_trade. by destruct (is_buy (tr_side tr)). Qed.

(** [if x < 0: x = 0.0] is the maximum of 0 and [x]. *)
Lemma floor_at_zero x y :
  x == y ->
  (if Py.ltb x 0 then 0 else x) == Qmax 0 y /\ 0 <= (if Py.ltb x 0 then 0 else x).
Proof.
  intros Hxy. destruct (Py.ltb x 0) eqn:E.
  - apply ltb_true in E. split; [|lra]. symmetry. apply Q.max_l. lra.
  - apply ltb_false in E. split; [|lra]. rewrite Hxy. symmetry. apply Q.max_r. lra.
Qed.

Lemma estimate_buy prices slippage_bps gas_cost_usd dex tr :
  is_buy (tr_side tr) = true ->
  let r := estimate prices slippage_bps gas_cost_usd dex tr in
  res_quoted_price r
  = price_of prices (tr_token tr) * (1 + bps_to_fraction slippage_bps) /\
  res_cost_usd r
  = Some (default 0 (tr_amount tr) * res_quoted_price r + gas_cost_usd) /\
  res_proceeds_usd r = None.
Proof.
  intros H. unfold estimate, estimate_trade, get_dex_quote. rewrite H. by simpl.
Qed.

Lemma estimate_sell prices slippage_bps gas_cost_usd dex tr :
  is_buy (tr_side tr) = false ->
  let r := estimate prices slippage_bps gas_cost_usd dex tr in
  let gross := default 0 (tr_amount tr) * res_quoted_price r - gas_cost_usd in
  res_quoted_price r
  = price_of prices (tr_token tr) * (1 - bps_to_fraction slippage_bps) /\
  res_cost_usd r = None /\
  res_proceeds_usd r = Some (if Py.ltb gross 0 then 0 else gross).
Proof.
  intros H. unfold estimate, estimate_trade, get_dex_quote. rewrite H. by simpl.
Qed.

Lemma simulated_in_results trades prices slippage_bps gas_cost_usd dex tr :
  tr ∈ trades -> 0 < price_of prices (tr_token tr) ->
  estimate prices slippage_bps gas_cost_usd dex tr
  ∈ sim_trades (simulate_trades trades prices slippage_bps gas_cost_usd dex).
Proof.
  intros Hin Hp.
  destruct (simulate_trades_spec trades prices slippage_bps gas_cost_usd dex)
    as (-> & _).
  apply list_elem_of_In, in_map, filter_In. split.
  - by apply list_elem_of_In.
  - by apply priced_true.
Qed.

Lemma results_are_simulated trades prices slippage_bps gas_cost_usd dex r :
  r ∈ sim_trades (simulate_trades trades prices slippage_bps gas_cost_usd dex) ->
  exists tr, tr ∈ trades /\ 0 < price_of prices (tr_token tr) /\
             r = estimate prices slippage_bps gas_cost_usd dex tr.
Proof.
  destruct (simulate_trades_spec trades prices slippage_bps gas_cost_usd dex)
    as (-> & _).
  intros (tr & <- & Htr)%list_elem_of_In%in_map_iff.
  apply filter_In in Htr as [Hin Hp]. exists tr.
  split; [by apply list_elem_of_In|]. split; [by apply priced_true | reflexivity].
Qed.

End SimulatorFacts.

(** ** The trade simulator *)

Import Simulator SimulatorSpec SimulatorFacts.

(** C3.  A target token whose price is not positive (a missing price reads
    as 0) gets no proposal, whatever its drift.  A trade on such a token
    leaves the simulation as if it were not in the input: the per-trade
    results and the whole summary are those of the input without it.  Both
    functions return normally. *)
Theorem unusable_price_is_skipped
    targets balances prices threshold_pct min_trade_usd t :
  get prices t 0 <= 0 ->
  (exists proposals : list proposal,
     propose_rebalance_trades targets balances prices threshold_pct min_trade_usd
     = Ok proposals /\
     forall p, p ∈ proposals -> token p <> t) /\
  (forall before after tr slippage_bps gas_cost_usd dex,
     tr_token tr = Some t ->
     simulate_trades (before ++ tr :: after) prices slippage_bps gas_cost_usd dex
     = simulate_trades (before ++ after) prices slippage_bps gas_cost_usd dex) /\
  (forall trades slippage_bps gas_cost_usd dex,
     let sim := simulate_trades trades prices slippage_bps gas_cost_usd dex in
     sim = simulate_trades (List.filter (priced prices) trades) prices
                           slippage_bps gas_cost_usd dex /\
     forall r, r ∈ sim_trades sim ->
               res_token r <> Some t /\ 0 < price_of prices (res_token r)).
Proof.
  intros Hprice. split; [|split].
  - destruct (propose_rebalance_trades_spec targets balances prices threshold_pct
                min_trade_usd) as (m & trades & _ & _ & Htr & Hmem).
    exists trades. split; [exact Htr|].
    intros p Hp Htok. apply Hmem in Hp as (t' & _ & _ & _ & Hpos & ->).
    simpl in Htok. subst t'. lra.
  - intros before after tr slippage_bps gas_cost_usd dex Htok.
    unfold simulate_trades.
    rewrite (simulate_loop_filter _ _ _ _ (before ++ tr :: after)).
    rewrite (simulate_loop_filter _ _ _ _ (before ++ after)).
    rewrite !List.filter_app. simpl.
    assert (priced prices tr = false) as ->; [|reflexivity].
    apply priced_false. rewrite Htok. exact Hprice.
  - intros trades slippage_bps gas_cost_usd dex. cbv zeta. split.
    + unfold simulate_trades. by rewrite simulate_loop_filter.
    + intros r (tr & _ & Hp & ->)%results_are_simulated.
      rewrite estimate_token. split; [|exact Hp].
      intros Heq. rewrite Heq in Hp. simpl in Hp. lra.
Qed.

Lemma unusable_price_is_skipped_scenario :
  get Scenario.prices "DAI" 0 <= 0 /\
  (exists proposals : list proposal,
     propose_rebalance_trades Scenario.targets_dai Scenario.balances Scenario.prices
                              (5 # 2) 100
     = Ok proposals /\
     forall p, p ∈ proposals -> token p <> "DAI") /\
  (forall before after tr slippage_bps gas_cost_usd dex,
     tr_token tr = Some "DAI" ->
     simulate_trades (before ++ tr :: after) Scenario.prices slippage_bps gas_cost_usd dex
     = simulate_trades (before ++ after) Scenario.prices slippage_bps gas_cost_usd dex) /\
  (forall trades slippage_bps gas_cost_usd dex,
     let sim := simulate_trades trades Scenario.prices slippage_bps gas_cost_usd dex in
     sim = simulate_trades (List.filter (priced Scenario.prices) trades) Scenario.prices
                           slippage_bps gas_cost_usd dex /\
     forall r, r ∈ sim_trades sim ->
               res_token r <> Some "DAI" /\ 0 < price_of Scenario.prices (res_token r)).
Proof.
  assert (H : get Scenario.prices "DAI" 0 <= 0) by (vm_compute; discriminate).
  split; [exact H|].
  exact (unusable_price_is_skipped
           Scenario.targets_dai Scenario.balances Scenario.prices (5 # 2) 100 "DAI" H).
Defined.





(** C8.  The venue label never reaches an output: two runs that differ only
    in [dex] quote the same price, estimate the same result for every trade
    and return the same simulation. *)
Theorem dex_label_noninterference (d1 d2 : string) :
  (forall token side amount price slippage_bps,
     get_dex_quote d1 token side amount price slippage_bps
     = get_dex_quote d2 token side amount price slippage_bps) /\
  (forall tr price slippage_bps gas_cost_usd,
     estimate_trade tr price slippage_bps gas_cost_usd d1
     = estimate_trade tr price slippage_bps gas_cost_usd d2) /\
  (forall trades prices slippage_bps gas_cost_usd,
     simulate_trades trades prices slippage_bps gas_cost_usd d1
     = simulate_trades trades prices slippage_bps gas_cost_usd d2).
Proof.
  assert (Hest : forall tr price slippage_bps gas_cost_usd,
             estimate_trade tr price slippage_bps gas_cost_usd d1
             = estimate_trade tr price slippage_bps gas_cost_usd d2).
  { intros. unfold estimate_trade, get_dex_quote. reflexivity. }
  split; [reflexivity|]. split; [exact Hest|].
  intros trades prices slippage_bps gas_cost_usd.
  assert (Hloop : forall st,
             simulate_loop prices slippage_bps gas_cost_usd d1 trades st
             = simulate_loop prices slippage_bps gas_cost_usd d2 trades st).
  { unfold simulate_loop. induction trades as [|tr trades IH]; intros st; simpl.
    - reflexivity.
    - unfold simulate_step at 2 4. rewrite Hest. apply IH. }
  unfold simulate_trades. by rewrite Hloop.
Qed.

(** C10.  A trade whose side is anything but the string "buy" (a missing
    side included) goes through the sell branch: it is quoted at
    [price * (1 - slip)], its result keeps the side as given and carries
    [proceeds_usd], floored at 0, and no [cost_usd]; when it is simulated
    that value is added to the total sell proceeds and the total buy cost
    is left alone. *)
Theorem non_buy_side_is_sold (tr : trade) :
  tr_side tr <> Some "buy" ->
  (forall price slippage_bps gas_cost_usd dex,
     let slip := Qmax (slippage_bps / 10000) 0 in
     let r := estimate_trade tr price slippage_bps gas_cost_usd dex in
     get_dex_quote dex (tr_token tr) (tr_side tr) (default 0 (tr_amount tr))
                   price slippage_bps == price * (1 - slip) /\
     res_quoted_price r == price * (1 - slip) /\
     res_side r = tr_side tr /\
     res_cost_usd r = None /\
     exists q, res_proceeds_usd r = Some q /\ 0 <= q /\
               q == Qmax 0 (default 0 (tr_amount tr) * res_quoted_price r
                            - gas_cost_usd)) /\
  (forall trades prices slippage_bps gas_cost_usd dex,
     0 < price_of prices (tr_token tr) ->
     let before := simulate_trades trades prices slippage_bps gas_cost_usd dex in
     let after :=
       simulate_trades (trades ++ [tr]) prices slippage_bps gas_cost_usd dex in
     let r := estimate_trade tr (price_of prices (tr_token tr))
                             slippage_bps gas_cost_usd dex in
     sim_trades after = (sim_trades before ++ [r])%list /\
     total_sell_proceeds_usd (sim_summary after)
     = total_sell_proceeds_usd (sim_summary before)
       + default 0 (res_proceeds_usd r) /\
     total_buy_cost_usd (sim_summary after)
     = total_buy_cost_usd (sim_summary before)).
Proof.
  intros Hside. apply is_buy_false in Hside. split.
  - intros price slippage_bps gas_cost_usd dex. cbv zeta.
    unfold estimate_trade, get_dex_quote. rewrite Hside. cbn [res_quoted_price
      res_side res_cost_usd res_proceeds_usd].
    rewrite <- bps_to_fraction_Qmax.
    split; [reflexivity|]. split; [reflexivity|]. split; [reflexivity|].
    split; [reflexivity|]. eexists. split; [reflexivity|].
    match goal with
    | |- context [Py.ltb ?x 0] => destruct (floor_at_zero x x (Qeq_refl x)) as [Hq Hnn]
    end.
    split; [exact Hnn | exact Hq].
  - intros trades prices slippage_bps gas_cost_usd dex Hp. cbv zeta.
    unfold simulate_trades, simulate_loop. rewrite fold_left_app. simpl.
    apply priced_true in Hp.
    destruct (simulate_step_priced prices slippage_bps gas_cost_usd dex
                (fold_left (simulate_step prices slippage_bps gas_cost_usd dex)
                           trades loop_init) tr Hp)
      as (Hres & _ & _ & Hsell).
    destruct (Hsell Hside) as [Hb Hs]. unfold estimate in *.
    split; [exact Hres|]. split; [exact Hs | exact Hb].
Qed.

Lemma non_buy_side_is_sold_scenario :
  let tr := Scenario.hold_eth in
  tr_side tr <> Some "buy" /\
  (forall price slippage_bps gas_cost_usd dex,
     let slip := Qmax (slippage_bps / 10000) 0 in
     let r := estimate_trade tr price slippage_bps gas_cost_usd dex in
     get_dex_quote dex (tr_token tr) (tr_side tr) (default 0 (tr_amount tr))
                   price slippage_bps == price * (1 - slip) /\
     res_quoted_price r == price * (1 - slip) /\
     res_side r = tr_side tr /\
     res_cost_usd r = None /\
     exists q, res_proceeds_usd r = Some q /\ 0 <= q /\
               q == Qmax 0 (default 0 (tr_amount tr) * res_quoted_price r
                            - gas_cost_usd)) /\
  (forall trades prices slippage_bps gas_cost_usd dex,
     0 < price_of prices (tr_token tr) ->
     let before := simulate_trades trades prices slippage_bps gas_cost_usd dex in
     let after :=
       simulate_trades (trades ++ [tr]) prices slippage_bps gas_cost_usd dex in
     let r := estimate_trade tr (price_of prices (tr_token tr))
                             slippage_bps gas_cost_usd dex in
     sim_trades after = (sim_trades before ++ [r])%list /\
     total_sell_proceeds_usd (sim_summary after)
     = total_sell_proceeds_usd (sim_summary before)
       + default 0 (res_proceeds_usd r) /\
     total_buy_cost_usd (sim_summary after)
     = total_buy_cost_usd (sim_summary before)).
Proof.
  cbv zeta.
  assert (H : tr_side Scenario.hold_eth <> Some "buy") by discriminate.
  split; [exact H|].
  exact (non_buy_side_is_sold Scenario.hold_eth H).
Defined.

(** ** The end-to-end scenario of the specification, checked by evaluation *)

Example scenario_proposals :
  exists sell buy : proposal,
    propose_rebalance_trades Scenario.targets Scenario.balances Scenario.prices
                             (5 # 2) 100
    = Ok [sell; buy] /\
    (token sell = "ETH" /\ side sell = "sell" /\
     amount sell == 1 # 2 /\ value_usd sell == 1000) /\
    (token buy = "USDC" /\ side buy = "buy" /\
     amount buy == 1000 /\ value_usd buy == 1000).
Proof.
  do 2 eexists. split; [vm_compute; reflexivity|].
  split; (split; [reflexivity|]; split; [reflexivity|]; split; reflexivity).
Qed.

Example scenario_simulation :
  exists (proposals : list proposal) (sell buy : trade_result),
    propose_rebalance_trades Scenario.targets Scenario.balances Scenario.prices
                             (5 # 2) 100
    = Ok proposals /\
    let sim := simulate_trades (map of_proposal proposals) Scenario.prices 50 5
                               "uniswap_v2" in
    sim_trades sim = [sell; buy] /\
    (exists q, res_proceeds_usd sell = Some q /\ q == 990) /\
    (exists c, res_cost_usd buy = Some c /\ c == 1010) /\
    total_sell_proceeds_usd (sim_summary sim) == 990 /\
    total_buy_cost_usd (sim_summary sim) == 1010 /\
    net_usd_effect (sim_summary sim) == -20 /\
    est_total_gas_usd (sim_summary sim) == 10.
Proof.
  do 3 eexists. split; [vm_compute; reflexivity|]. cbv zeta.
  split; [vm_compute; reflexivity|].
  split; [eexists; split; [reflexivity | reflexivity]|].
  split; [eexists; split; [reflexivity | reflexivity]|].
  repeat split.
Qed.

Example sideless_trade_is_sold :
  exists q,
    res_proceeds_usd (estimate_trade Scenario.sideless_eth 2000 50 5 "uniswap_v2")
    = Some q /\ q == 990.
Proof. eexists. split; reflexivity. Qed.

(** ** More on the portfolio value and the allocations *)

Module PortfolioFacts.

Lemma sum_map_zero {A} (g : A -> Q) (l : list A) :
  (forall x, In x l -> g x == 0) -> Py.sum (map g l) == 0.
Proof.
  induction l as [|x l IH]; intros Hz; simpl.
  - reflexivity.
  - rewrite sum_cons, (Hz x) by (by left). rewrite IH; [lra|].
    intros y Hy. apply Hz. by right.
Qed.

Lemma sum_map_ext {A} (g h : A -> Q) (l : list A) :
  (forall x, In x l -> g x == h x) -> Py.sum (map g l) == Py.sum (map h l).
Proof.
  induction l as [|x l IH]; intros He; simpl.
  - reflexivity.
  - rewrite !sum_cons, (He x) by (by left). rewrite IH; [reflexivity|].
    intros y Hy. apply He. by right.
Qed.

(** Two duplicate-free lists give the same sum of a weight that vanishes
    wherever they differ. *)
Lemma sum_map_support (g : string -> Q) (L : list string) :
  NoDup L ->
  forall U : list string,
    NoDup U ->
    (forall x, x ∈ L -> x ∉ U -> g x == 0) ->
    (forall x, x ∈ U -> x ∉ L -> g x == 0) ->
    Py.sum (map g L) == Py.sum (map g U).
Proof.
  intros HL. induction HL as [|k L Hk HL IH]; intros U HU HLU HUL; simpl.
  - symmetry. apply sum_map_zero. intros x Hx. apply HUL.
    + by apply list_elem_of_In.
    + apply not_elem_of_nil.
  - rewrite sum_cons. destruct (decide (k ∈ U)) as [Hin|Hnin].
    + apply elem_of_Permutation in Hin as [U' HU'].
      rewrite (sum_Permutation (map g U) (map g (k :: U'))) by (by apply Permutation_map).
      simpl. rewrite sum_cons.
      rewrite HU' in HU. apply NoDup_cons in HU as [HkU' HU'nd].
      rewrite (IH U' HU'nd); [reflexivity| |].
      * intros x HxL HxU'. apply HLU; [by right|].
        rewrite HU'. intros [->|?]%elem_of_cons; contradiction.
      * intros x HxU' HxL. apply HUL; [rewrite HU'; by right|].
        intros [->|?]%elem_of_cons; contradiction.
    + rewrite (HLU k) by (done || by left).
      rewrite (IH U HU); [lra| |].
      * intros x HxL HxU. apply HLU; [by right | done].
      * intros x HxU HxL. apply HUL; [done|].
        intros [->|?]%elem_of_cons; contradiction.
Qed.

Lemma held_value_outside balances prices t :
  t ∉ dom balances ∩ dom prices -> held_value balances prices t == 0.
Proof.
  intros Ht. unfold held_value, get.
  destruct (balances !! t) as [b|] eqn:Eb; simpl; [|lra].
  destruct (prices !! t) as [p|] eqn:Ep; simpl; [|lra].
  exfalso. apply Ht. apply elem_of_intersection. split; apply elem_of_dom; by eexists.
Qed.

Lemma portfolio_value_over_list balances prices (L : list string) :
  NoDup L ->
  (forall t, t ∈ dom balances ∩ dom prices -> t ∈ L) ->
  compute_portfolio_value balances prices
  == Py.sum (map (held_value balances prices) L).
Proof.
  intros HL Hcover. unfold compute_portfolio_value.
  change (Py.sum (map (held_value balances prices)
                      (elements (dom balances ∪ dom prices)))
          == Py.sum (map (held_value balances prices) L)).
  apply sum_map_support.
  - apply NoDup_elements.
  - exact HL.
  - intros x _ HxL. apply held_value_outside. intros Hx. by apply HxL, Hcover.
  - intros x _ HxU. apply held_value_outside. intros Hx. apply HxU.
    apply elem_of_elements. apply elem_of_intersection in Hx as [Hx _].
    apply elem_of_union. by left.
Qed.

Lemma get_insert_ne (m : gmap string Q) t t' x :
  t <> t' -> get (<[t := x]> m) t' 0 = get m t' 0.
Proof. intros Hne. unfold get. by rewrite lookup_insert_ne. Qed.

Lemma get_insert_eq (m : gmap string Q) t x : get (<[t := x]> m) t 0 = x.
Proof. unfold get. by rewrite lookup_insert_eq. Qed.

End PortfolioFacts.

Import PortfolioFacts.






(** X4.  The dict returned by [current_allocations] has exactly the requested
    tokens as keys, also when the list repeats a token; with a positive
    portfolio value a requested token maps to its balance x price over that
    value. *)
Theorem allocations_lookup (balances prices : gmap string Q) (tokens : list string) :
  exists allocs : gmap string Q,
    current_allocations balances prices tokens = Ok allocs /\
    dom allocs = list_to_set tokens /\
    (forall t, t ∉ tokens -> allocs !! t = None) /\
    (0 < compute_portfolio_value balances prices ->
     forall t, t ∈ tokens ->
       allocs !! t = Some (get balances t 0 * get prices t 0
                           / compute_portfolio_value balances prices)).
Proof.
  destruct (current_allocations_spec balances prices tokens) as [m [Hm Hlook]].
  exists m. split; [exact Hm|]. split; [|split].
  - apply set_eq. intros t. rewrite elem_of_dom, elem_of_list_to_set, Hlook.
    destruct (decide (t ∈ tokens)) as [Hin|Hnin].
    + split; [done | by eexists].
    + split; [intros [? ?]; discriminate | done].
  - intros t Ht. by rewrite Hlook, decide_False.
  - intros Hpos t Ht. rewrite Hlook, decide_True by exact Ht.
    unfold fraction. apply leb_false in Hpos. by rewrite Hpos.
Qed.

(** ** More on the proposals *)

Module ProposerFacts.

Lemma propose_body_token targets curr_alloc prices total_value threshold_pct min_trade_usd t p :
  propose_body targets curr_alloc prices total_value threshold_pct min_trade_usd t
  = Ok (Some p) ->
  token p = t.
Proof. intros (_ & _ & _ & ->)%propose_body_Some. reflexivity. Qed.

(** The tokens of what the loop appends follow the order of the tokens it
    visits. *)
Lemma propose_loop_sublist (body : string -> result (option proposal))
    (tokens : list string) :
  (forall t, exists step, body t = Ok step) ->
  (forall t p, body t = Ok (Some p) -> token p = t) ->
  forall acc, exists out,
    propose_loop body tokens acc = Ok (acc ++ out)%list /\
    sublist (map token out) tokens.
Proof.
  intros Hok Htok. induction tokens as [|t rest IH]; intros acc; simpl.
  - exists []. rewrite app_nil_r. split; [reflexivity | constructor].
  - destruct (Hok t) as [[q|] Hq]; rewrite Hq; simpl.
    + destruct (IH (acc ++ [q])%list) as [out [Hout Hsub]].
      exists (q :: out). split.
      * rewrite Hout. by rewrite <- app_assoc.
      * simpl. rewrite (Htok t q Hq). by apply sublist_skip.
    + destruct (IH acc) as [out [Hout Hsub]].
      exists out. split; [exact Hout | by apply sublist_cons].
Qed.

Lemma propose_nil_of_nonpositive targets balances prices threshold_pct min_trade_usd :
  compute_portfolio_value balances prices <= 0 ->
  propose_rebalance_trades targets balances prices threshold_pct min_trade_usd = Ok [].
Proof.
  intros Htotal.
  destruct (propose_rebalance_trades_spec targets balances prices threshold_pct
              min_trade_usd) as (m & trades & _ & _ & Htr & Hmem).
  rewrite Htr. destruct trades as [|p trades]; [reflexivity|].
  destruct (proj1 (Hmem p)) as (t & _ & Hpos & _); [by left | lra].
Qed.

Lemma zeros_lookup (tokens : list string) (t : string) :
  Wallet.zeros tokens !! t = if decide (t ∈ tokens) then Some 0 else None.
Proof.
  unfold Wallet.zeros.
  assert (Hgen : forall acc : gmap string Q,
             fold_left (fun d k => <[k := 0]> d) tokens acc !! t
             = if decide (t ∈ tokens) then Some 0 else acc !! t).
  { induction tokens as [|k rest IH]; intros acc; cbn [fold_left].
    - rewrite decide_False; [reflexivity | apply not_elem_of_nil].
    - rewrite IH. destruct (decide (t ∈ rest)) as [Hin|Hnin].
      + rewrite decide_True; [reflexivity | by right].
      + destruct (decide (t = k)) as [->|Hne].
        * rewrite lookup_insert_eq, decide_True; [reflexivity | by left].
        * rewrite lookup_insert_ne by done. rewrite decide_False; [reflexivity|].
          intros [?|?]%elem_of_cons; contradiction. }
  rewrite Hgen. destruct (decide (t ∈ tokens)); [reflexivity | apply lookup_empty].
Qed.

Lemma get_zeros tokens t : get (Wallet.zeros tokens) t 0 = 0.
Proof. unfold get. rewrite zeros_lookup. by destruct (decide (t ∈ tokens)). Qed.

Lemma portfolio_value_zero_balances tokens prices :
  compute_portfolio_value (Wallet.zeros tokens) prices == 0.
Proof.
  unfold compute_portfolio_value. apply sum_map_zero.
  intros t _. rewrite get_zeros. ring.
Qed.

Lemma portfolio_value_zero_prices tokens balances :
  compute_portfolio_value balances (Wallet.zeros tokens) == 0.
Proof.
  unfold compute_portfolio_value. apply sum_map_zero.
  intros t _. rewrite get_zeros. ring.
Qed.

End ProposerFacts.

Import ProposerFacts.

(** X5.  The proposals come in the order of the keys of [targets], each key
    giving at most one: their tokens form a sublist of the keys, and are
    pairwise distinct when the keys are. *)
Theorem proposals_follow_targets targets balances prices threshold_pct min_trade_usd :
  exists trades : list proposal,
    propose_rebalance_trades targets balances prices threshold_pct min_trade_usd
    = Ok trades /\
    sublist (map token trades) (keys targets) /\
    (length trades <= length targets)%nat /\
    (NoDup (keys targets) -> NoDup (map token trades)).
Proof.
  destruct (current_allocations_spec balances prices (keys targets)) as [m [Hm _]].
  destruct (propose_loop_sublist
              (propose_body targets m prices (compute_portfolio_value balances prices)
                            threshold_pct min_trade_usd)
              (keys targets)
              (propose_body_ok targets m prices _ threshold_pct min_trade_usd)
              (propose_body_token targets m prices _ threshold_pct min_trade_usd) [])
    as [out [Hout Hsub]].
  exists out. split; [|split; [exact Hsub|split]].
  - unfold propose_rebalance_trades. rewrite Hm. simpl. exact Hout.
  - apply sublist_length in Hsub. unfold keys in Hsub.
    rewrite !length_map in Hsub. exact Hsub.
  - intros Hnd. eapply sublist_NoDup; eassumption.
Qed.

(** X6.  A proposal is a buy exactly when the token's current allocation is
    strictly below its target, and a sell otherwise; no other side occurs. *)
Theorem proposal_side targets balances prices threshold_pct min_trade_usd :
  exists trades : list proposal,
    propose_rebalance_trades targets balances prices threshold_pct min_trade_usd
    = Ok trades /\
    forall p, p ∈ trades ->
      (side p = "buy" /\ current_allocation p < target_allocation p) \/
      (side p = "sell" /\ target_allocation p <= current_allocation p).
Proof.
  destruct (propose_rebalance_trades_spec targets balances prices threshold_pct
              min_trade_usd) as (m & trades & _ & _ & Htr & Hmem).
  exists trades. split; [exact Htr|].
  intros p Hp. apply Hmem in Hp as (t & _ & _ & _ & _ & ->).
  cbn [side current_allocation target_allocation].
  destruct (Py.ltb 0 (oget targets t 0 - get m t 0)) eqn:E.
  - apply ltb_true in E. left. split; [reflexivity | lra].
  - apply ltb_false in E. right. split; [reflexivity | lra].
Qed.


(** X8.  The placeholder fetchers report 0 for every token, so with the
    balances of [fetch_balances] (whatever the prices) or with the prices of
    [fetch_prices] (whatever the balances) the portfolio is worth 0 and no
    trade is ever proposed. *)
Theorem placeholder_data_proposes_nothing
    targets threshold_pct min_trade_usd address base_currency (tokens : list string) :
  (forall prices : gmap string Q,
     compute_portfolio_value (Wallet.fetch_balances address tokens) prices == 0 /\
     propose_rebalance_trades targets (Wallet.fetch_balances address tokens) prices
                              threshold_pct min_trade_usd = Ok []) /\
  (forall balances : gmap string Q,
     compute_portfolio_value balances (Wallet.fetch_prices tokens base_currency) == 0 /\
     propose_rebalance_trades targets balances (Wallet.fetch_prices tokens base_currency)
                              threshold_pct min_trade_usd = Ok []).
Proof.
  unfold Wallet.fetch_balances, Wallet.fetch_prices. split.
  - intros prices. pose proof (portfolio_value_zero_balances tokens prices) as Hz.
    split; [exact Hz|]. apply propose_nil_of_nonpositive. lra.
  - intros balances. pose proof (portfolio_value_zero_prices tokens balances) as Hz.
    split; [exact Hz|]. apply propose_nil_of_nonpositive. lra.
Qed.

(** ** The wallet address *)

Module WalletFacts.
Import Config Wallet.

Lemma truthy_true s : truthy s = true <-> s <> "".
Proof. unfold truthy. rewrite negb_true_iff. apply String.eqb_neq. Qed.

Lemma truthy_opt_true o : truthy_opt o = true <-> exists s, o = Some s /\ s <> "".
Proof.
  destruct o as [s|]; simpl.
  - rewrite truthy_true. split; [intros H; by exists s | intros (s' & [= ->] & H); exact H].
  - split; [discriminate | intros (s & H & _); discriminate H].
Qed.

Lemma truthy_opt_false o : truthy_opt o = false <-> o = None \/ o = Some "".
Proof.
  destruct o as [s|]; simpl.
  - unfold truthy. rewrite negb_false_iff, String.eqb_eq. split.
    + intros ->. by right.
    + intros [H|[= ->]]; [discriminate H | reflexivity].
  - split; [by left | reflexivity].
Qed.

Lemma length_append s1 s2 :
  String.length (String.append s1 s2) = (String.length s1 + String.length s2)%nat.
Proof. induction s1 as [|c s1 IH]; simpl; [reflexivity | by rewrite IH]. Qed.

Lemma append_assoc s1 s2 s3 :
  String.append (String.append s1 s2) s3 = String.append s1 (String.append s2 s3).
Proof.
  induction s1 as [|c s1 IH]; [reflexivity|].
  change (String c (String.append (String.append s1 s2) s3)
          = String c (String.append s1 (String.append s2 s3))).
  f_equal. exact IH.
Qed.

Lemma length_substring_0 s : forall n,
  (n <= String.length s)%nat -> String.length (String.substring 0 n s) = n.
Proof.
  induction s as [|c s IH]; intros [|n] Hn; simpl in *; try reflexivity; try lia.
  rewrite IH; [reflexivity | lia].
Qed.

Lemma substring_0_length s : String.substring 0 (String.length s) s = s.
Proof. induction s as [|c s IH]; simpl; [reflexivity | by rewrite IH]. Qed.

Lemma substring_split s : forall n,
  (n <= String.length s)%nat ->
  s = String.append (String.substring 0 n s)
                    (String.substring n (String.length s - n) s).
Proof.
  induction s as [|c s IH]; intros [|n] Hn; simpl in *; try reflexivity; try lia.
  - by rewrite substring_0_length.
  - change (String c s = String c (String.append (String.substring 0 n s)
              (String.substring n (String.length s - n) s))).
    f_equal. apply IH. lia.
Qed.

Lemma substring_0_substring_0 s : forall n m,
  (n <= m)%nat ->
  String.substring 0 n (String.substring 0 m s) = String.substring 0 n s.
Proof.
  induction s as [|c s IH]; intros [|n] [|m] Hnm; simpl; try reflexivity; try lia.
  f_equal. apply IH. lia.
Qed.

End WalletFacts.

Import Config Wallet WalletFacts.

(** X9.  A session provider that returns a non-empty address decides the
    wallet address, whatever the environment and the config hold.  One that
    raises, returns [None] or returns the empty string changes nothing: the
    result is the one obtained without a provider. *)
Theorem session_provider_priority (config : Config.config) (environ : gmap string string) :
  (forall addr, addr <> "" ->
     resolve_wallet_address config (Some (Returns (Some addr))) environ = addr) /\
  resolve_wallet_address config (Some Raises) environ
  = resolve_wallet_address config None environ /\
  resolve_wallet_address config (Some (Returns None)) environ
  = resolve_wallet_address config None environ /\
  resolve_wallet_address config (Some (Returns (Some ""))) environ
  = resolve_wallet_address config None environ.
Proof.
  split; [|by repeat split].
  intros addr Haddr. unfold resolve_wallet_address. simpl.
  apply truthy_true in Haddr. by rewrite Haddr.
Qed.

(** X10.  Without a usable session address the first non-empty value among
    the environment variables USER_WALLET_ADDRESS and WALLET_ADDRESS and the
    config's wallet_address is returned; a variable set to the empty string
    counts as unset; the result is the empty string exactly when none of the
    three has a non-empty value. *)
Theorem wallet_fallback_chain (config : Config.config) (environ : gmap string string) :
  let user := environ !! "USER_WALLET_ADDRESS" in
  let wallet := environ !! "WALLET_ADDRESS" in
  let configured := cfg_wallet_address config in
  let unusable (o : option string) := o = None \/ o = Some "" in
  let r := resolve_wallet_address config None environ in
  (forall a, user = Some a -> a <> "" -> r = a) /\
  (unusable user -> forall a, wallet = Some a -> a <> "" -> r = a) /\
  (unusable user -> unusable wallet ->
   forall a, configured = Some a -> a <> "" -> r = a) /\
  (r = "" <-> unusable user /\ unusable wallet /\ unusable configured).
Proof.
  cbv zeta. unfold resolve_wallet_address, getenv, or_else.
  destruct (truthy_opt (environ !! "USER_WALLET_ADDRESS")) eqn:Eu.
  { apply truthy_opt_true in Eu as (u & Hu & Hune). rewrite Hu.
    rewrite (proj2 (truthy_true u) Hune).
    split; [intros a [= ->] _; reflexivity|].
    split; [intros [H|[= H]]; [discriminate H | contradiction]|].
    split; [intros [H|[= H]]; [discriminate H | contradiction]|].
    split; [contradiction|]. intros ([H|[= H]] & _); [discriminate H | contradiction]. }
  pose proof (proj1 (truthy_opt_false _) Eu) as Hu.
  split. { intros a Ha Hne. destruct Hu as [Hu|Hu]; rewrite Hu in Ha; congruence. }
  destruct (truthy_opt (environ !! "WALLET_ADDRESS")) eqn:Ew.
  { apply truthy_opt_true in Ew as (w & Hw & Hwne). rewrite Hw.
    rewrite (proj2 (truthy_true w) Hwne).
    split; [intros _ a [= ->] _; reflexivity|].
    split; [intros _ [H|[= H]]; [discriminate H | contradiction]|].
    split; [contradiction|]. intros (_ & [H|[= H]] & _); [discriminate H | contradiction]. }
  pose proof (proj1 (truthy_opt_false _) Ew) as Hw.
  split. { intros _ a Ha Hne. destruct Hw as [Hw|Hw]; rewrite Hw in Ha; congruence. }
  assert (Hrest :
    match environ !! "WALLET_ADDRESS" with
    | Some addr =>
      if truthy addr then addr
      else default "" (if truthy_opt (cfg_wallet_address config)
                       then cfg_wallet_address config else Some "")
    | None => default "" (if truthy_opt (cfg_wallet_address config)
                          then cfg_wallet_address config else Some "")
    end
    = default "" (if truthy_opt (cfg_wallet_address config)
                  then cfg_wallet_address config else Some "")).
  { destruct Hw as [->| ->]; reflexivity. }
  rewrite Hrest. clear Hrest.
  destruct (truthy_opt (cfg_wallet_address config)) eqn:Ec.
  - apply truthy_opt_true in Ec as (c & Hc & Hcne). rewrite Hc. simpl.
    split; [intros _ _ a [= ->] _; reflexivity|].
    split; [contradiction|]. intros (_ & _ & [H|[= H]]); [discriminate H | contradiction].
  - pose proof (proj1 (truthy_opt_false _) Ec) as Hc. simpl.
    split. { intros _ _ a Ha Hne. destruct Hc as [Hc|Hc]; rewrite Hc in Ha; congruence. }
    split; [by intros _|reflexivity].
Qed.

(** X11.  The wallet shown in messages: an address of at most 10 characters
    is shown whole; a longer one is cut to its first 6 and its last 3
    characters with three dots between, 12 characters in all. *)
Theorem short_wallet_shape (w : string) :
  ((String.length w <= 10)%nat -> short_wallet w = w) /\
  ((10 < String.length w)%nat ->
   exists head mid tail : string,
     w = String.append head (String.append mid tail) /\
     String.length head = 6%nat /\ String.length tail = 3%nat /\
     short_wallet w = String.append head (String.append "..." tail) /\
     String.length (short_wallet w) = 12%nat).
Proof.
  unfold short_wallet. split.
  - intros Hlen. apply Nat.ltb_ge in Hlen. by rewrite Hlen.
  - intros Hlen. rewrite (proj2 (Nat.ltb_lt _ _) Hlen).
    set (n := String.length w) in *.
    set (front := String.substring 0 (n - 3) w).
    set (tail := String.substring (n - 3) 3 w).
    assert (Hw : w = String.append front tail).
    { unfold front, tail. replace 3%nat with (n - (n - 3))%nat at 3 by lia.
      apply substring_split. lia. }
    assert (Hfront : String.length front = (n - 3)%nat)
      by (apply length_substring_0; lia).
    assert (Htail : String.length tail = 3%nat).
    { assert (H := f_equal String.length Hw). rewrite length_append, Hfront in H.
      fold n in H. lia. }
    assert (Hhead : String.substring 0 6 w = String.substring 0 6 front)
      by (symmetry; apply substring_0_substring_0; lia).
    rewrite Hhead.
    exists (String.substring 0 6 front),
           (String.substring 6 (String.length front - 6) front), tail.
    assert (Hh6 : String.length (String.substring 0 6 front) = 6%nat)
      by (apply length_substring_0; lia).
    split; [|split; [exact Hh6|split; [exact Htail|split; [reflexivity|]]]].
    + rewrite <- append_assoc, <- (substring_split front 6) by lia. exact Hw.
    + rewrite !length_append, Hh6, Htail. reflexivity.
Qed.

(** ** More on the simulator *)

Module SimulatorMore.
Import Simulator SimulatorSpec SimulatorFacts.

Lemma bps_to_fraction_pos bps : 0 <= bps_to_fraction bps.
Proof. unfold bps_to_fraction. apply max_r. Qed.

Lemma bps_to_fraction_mono b1 b2 :
  b1 <= b2 -> bps_to_fraction b1 <= bps_to_fraction b2.
Proof.
  intros H. unfold bps_to_fraction. apply max_mono; [|lra].
  apply Qmult_le_compat_r; [exact H|]. apply Qlt_le_weak. reflexivity.
Qed.

Lemma floor_mono x y :
  x <= y -> (if Py.ltb x 0 then 0 else x) <= (if Py.ltb y 0 then 0 else y).
Proof.
  intros H. destruct (Py.ltb x 0) eqn:Ex; destruct (Py.ltb y 0) eqn:Ey;
    try apply ltb_true in Ex; try apply ltb_false in Ex;
    try apply ltb_true in Ey; try apply ltb_false in Ey; lra.
Qed.

Lemma sum_cost_usd_app r1 r2 :
  sum_cost_usd (r1 ++ r2) == sum_cost_usd r1 + sum_cost_usd r2.
Proof.
  unfold sum_cost_usd, buy_results.
  by rewrite List.filter_app, List.map_app, sum_app.
Qed.

Lemma sum_proceeds_usd_app r1 r2 :
  sum_proceeds_usd (r1 ++ r2) == sum_proceeds_usd r1 + sum_proceeds_usd r2.
Proof.
  unfold sum_proceeds_usd, sell_results.
  by rewrite List.filter_app, List.map_app, sum_app.
Qed.

Lemma filter_all {A} (f : A -> bool) (l : list A) :
  (forall x, In x l -> f x = true) -> List.filter f l = l.
Proof.
  induction l as [|x l IH]; intros H; simpl; [reflexivity|].
  rewrite (H x) by (by left). f_equal. apply IH. intros y Hy. apply H. by right.
Qed.

End SimulatorMore.

Import SimulatorMore.

(** X12.  Slippage and gas never favour the trader: for a non-negative
    amount, price and gas cost, a buy is quoted at or above the price and
    costs at least amount x price, and a sell is quoted at or below the
    price and yields at most amount x price. *)
Theorem slippage_and_gas_are_adverse
    (tr : trade) (price slippage_bps gas_cost_usd : Q) (dex : string) :
  0 <= price ->
  0 <= default 0 (tr_amount tr) ->
  0 <= gas_cost_usd ->
  let r := estimate_trade tr price slippage_bps gas_cost_usd dex in
  let notional := default 0 (tr_amount tr) * price in
  (tr_side tr = Some "buy" ->
   price <= res_quoted_price r /\
   exists c, res_cost_usd r = Some c /\ notional <= c) /\
  (tr_side tr <> Some "buy" ->
   res_quoted_price r <= price /\
   exists q, res_proceeds_usd r = Some q /\ q <= notional).
Proof.
  intros Hp Ha Hg. cbv zeta.
  pose proof (bps_to_fraction_pos slippage_bps) as Hs.
  set (a := default 0 (tr_amount tr)) in *.
  set (s := bps_to_fraction slippage_bps) in *.
  assert (Hps : 0 <= price * s) by (by apply Qmult_le_0_compat).
  assert (Haps : 0 <= a * (price * s)) by (by apply Qmult_le_0_compat).
  assert (Hap : 0 <= a * price) by (by apply Qmult_le_0_compat).
  split.
  - intros Hside. apply is_buy_true in Hside.
    unfold estimate_trade, get_dex_quote. rewrite Hside.
    cbn [res_quoted_price res_cost_usd]. fold a s. split.
    + assert (price * (1 + s) == price + price * s) as -> by ring. lra.
    + eexists. split; [reflexivity|].
      assert (a * (price * (1 + s)) + gas_cost_usd
              == a * price + a * (price * s) + gas_cost_usd) as -> by ring.
      lra.
  - intros Hside. apply is_buy_false in Hside.
    unfold estimate_trade, get_dex_quote. rewrite Hside.
    cbn [res_quoted_price res_proceeds_usd]. fold a s. split.
    + assert (price * (1 - s) == price - price * s) as -> by ring. lra.
    + eexists. split; [reflexivity|].
      assert (Hx : a * (price * (1 - s)) - gas_cost_usd <= a * price).
      { assert (a * (price * (1 - s)) - gas_cost_usd
                == a * price - a * (price * s) - gas_cost_usd) as -> by ring.
        lra. }
      destruct (Py.ltb _ 0); lra.
Qed.

Lemma slippage_and_gas_are_adverse_scenario :
  let tr := Scenario.sell_eth in
  0 <= 2000 /\
  0 <= default 0 (tr_amount tr) /\
  0 <= 5 /\
  let r := estimate_trade tr 2000 50 5 "uniswap_v2" in
  let notional := default 0 (tr_amount tr) * 2000 in
  (tr_side tr = Some "buy" ->
   2000 <= res_quoted_price r /\
   exists c, res_cost_usd r = Some c /\ notional <= c) /\
  (tr_side tr <> Some "buy" ->
   res_quoted_price r <= 2000 /\
   exists q, res_proceeds_usd r = Some q /\ q <= notional).
Proof.
  cbv zeta.
  assert (H1 : 0 <= 2000) by (vm_compute; discriminate).
  assert (H2 : 0 <= default 0 (tr_amount Scenario.sell_eth)) by (vm_compute; discriminate).
  assert (H3 : 0 <= 5) by (vm_compute; discriminate).
  split; [exact H1|]. split; [exact H2|]. split; [exact H3|].
  exact (slippage_and_gas_are_adverse Scenario.sell_eth 2000 50 5 "uniswap_v2" H1 H2 H3).
Defined.

(** X13.  A larger slippage tolerance never helps: with a non-negative
    amount and price, raising [slippage_bps] does not lower the cost of a
    buy and does not raise the proceeds of a sell. *)
Theorem slippage_monotonicity
    (tr : trade) (price bps1 bps2 gas_cost_usd : Q) (dex : string) :
  0 <= price ->
  0 <= default 0 (tr_amount tr) ->
  bps1 <= bps2 ->
  let r1 := estimate_trade tr price bps1 gas_cost_usd dex in
  let r2 := estimate_trade tr price bps2 gas_cost_usd dex in
  default 0 (res_cost_usd r1) <= default 0 (res_cost_usd r2) /\
  default 0 (res_proceeds_usd r2) <= default 0 (res_proceeds_usd r1) /\
  (tr_side tr = Some "buy" -> is_Some (res_cost_usd r1) /\ is_Some (res_cost_usd r2)) /\
  (tr_side tr <> Some "buy" ->
   is_Some (res_proceeds_usd r1) /\ is_Some (res_proceeds_usd r2)).
Proof.
  intros Hp Ha Hb. cbv zeta.
  pose proof (bps_to_fraction_mono bps1 bps2 Hb) as Hs.
  set (a := default 0 (tr_amount tr)) in *.
  set (s1 := bps_to_fraction bps1) in *. set (s2 := bps_to_fraction bps2) in *.
  assert (Hap : 0 <= a * price) by (by apply Qmult_le_0_compat).
  assert (Hmono : a * price * s1 <= a * price * s2)
    by (rewrite !(Qmult_comm (a * price)); by apply Qmult_le_compat_r).
  unfold estimate_trade, get_dex_quote. fold a s1 s2.
  destruct (is_buy (tr_side tr)) eqn:E; cbn [res_cost_usd res_proceeds_usd default from_option id].
  - apply is_buy_true in E. split; [|split; [lra|split]].
    + assert (a * (price * (1 + s1)) + gas_cost_usd
              == a * price + a * price * s1 + gas_cost_usd) as -> by ring.
      assert (a * (price * (1 + s2)) + gas_cost_usd
              == a * price + a * price * s2 + gas_cost_usd) as -> by ring.
      lra.
    + intros _. split; by eexists.
    + intros H. contradiction.
  - apply is_buy_false in E. split; [lra|split; [|split]].
    + apply floor_mono.
      assert (a * (price * (1 - s1)) - gas_cost_usd
              == a * price - a * price * s1 - gas_cost_usd) as -> by ring.
      assert (a * (price * (1 - s2)) - gas_cost_usd
              == a * price - a * price * s2 - gas_cost_usd) as -> by ring.
      lra.
    + intros H. contradiction.
    + intros _. split; by eexists.
Qed.

Lemma slippage_monotonicity_scenario :
  let tr := Scenario.sell_eth in
  0 <= 2000 /\
  0 <= default 0 (tr_amount tr) /\
  50 <= 100 /\
  let r1 := estimate_trade tr 2000 50 5 "uniswap_v2" in
  let r2 := estimate_trade tr 2000 100 5 "uniswap_v2" in
  default 0 (res_cost_usd r1) <= default 0 (res_cost_usd r2) /\
  default 0 (res_proceeds_usd r2) <= default 0 (res_proceeds_usd r1) /\
  (tr_side tr = Some "buy" -> is_Some (res_cost_usd r1) /\ is_Some (res_cost_usd r2)) /\
  (tr_side tr <> Some "buy" ->
   is_Some (res_proceeds_usd r1) /\ is_Some (res_proceeds_usd r2)).
Proof.
  cbv zeta.
  assert (H1 : 0 <= 2000) by (vm_compute; discriminate).
  assert (H2 : 0 <= default 0 (tr_amount Scenario.sell_eth)) by (vm_compute; discriminate).
  assert (H3 : 50 <= 100) by (vm_compute; discriminate).
  split; [exact H1|]. split; [exact H2|]. split; [exact H3|].
  exact (slippage_monotonicity Scenario.sell_eth 2000 50 100 5 "uniswap_v2" H1 H2 H3).
Defined.


(** X15.  The slippage tolerance has no upper bound: above 10000 bps the
    quoted price of a sell on a positively priced token is negative, and a
    sell of a non-negative amount with a non-negative gas cost then yields
    exactly 0. *)
Theorem excess_slippage_sells_for_nothing
    (tr : trade) (price slippage_bps gas_cost_usd : Q) (dex : string) :
  tr_side tr <> Some "buy" ->
  0 < price ->
  10000 < slippage_bps ->
  0 <= default 0 (tr_amount tr) ->
  0 <= gas_cost_usd ->
  let r := estimate_trade tr price slippage_bps gas_cost_usd dex in
  res_quoted_price r < 0 /\
  exists q, res_proceeds_usd r = Some q /\ q == 0.
Proof.
  intros Hside Hp Hb Ha Hg. cbv zeta. apply is_buy_false in Hside.
  assert (Hs : 1 < bps_to_fraction slippage_bps).
  { eapply Qlt_le_trans; [|apply max_l]. apply Qlt_shift_div_l; [reflexivity | lra]. }
  unfold estimate_trade, get_dex_quote. rewrite Hside.
  cbn [res_quoted_price res_proceeds_usd].
  set (a := default 0 (tr_amount tr)) in *.
  set (s := bps_to_fraction slippage_bps) in *.
  assert (Hq : price * (1 - s) < 0).
  { assert (0 < price * (s - 1)) by (apply Qmult_lt_0_compat; lra).
    assert (price * (1 - s) == - (price * (s - 1))) as -> by ring. lra. }
  split; [exact Hq|]. eexists. split; [reflexivity|].
  assert (Hx : a * (price * (1 - s)) - gas_cost_usd <= 0).
  { assert (0 <= a * (price * (s - 1))) by (apply Qmult_le_0_compat; [exact Ha|];
      apply Qmult_le_0_compat; lra).
    assert (a * (price * (1 - s)) - gas_cost_usd
            == - (a * (price * (s - 1))) - gas_cost_usd) as -> by ring. lra. }
  destruct (Py.ltb _ 0) eqn:E; [reflexivity|]. apply ltb_false in E. lra.
Qed.

Lemma excess_slippage_sells_for_nothing_scenario :
  let tr := Scenario.sell_eth in
  tr_side tr <> Some "buy" /\
  0 < 2000 /\
  10000 < 12000 /\
  0 <= default 0 (tr_amount tr) /\
  0 <= 5 /\
  let r := estimate_trade tr 2000 12000 5 "uniswap_v2" in
  res_quoted_price r < 0 /\
  exists q, res_proceeds_usd r = Some q /\ q == 0.
Proof.
  cbv zeta.
  assert (H0 : tr_side Scenario.sell_eth <> Some "buy") by discriminate.
  assert (H1 : 0 < 2000) by (vm_compute; reflexivity).
  assert (H2 : 10000 < 12000) by (vm_compute; reflexivity).
  assert (H3 : 0 <= default 0 (tr_amount Scenario.sell_eth)) by (vm_compute; discriminate).
  assert (H4 : 0 <= 5) by (vm_compute; discriminate).
  split; [exact H0|]. split; [exact H1|]. split; [exact H2|]. split; [exact H3|].
  split; [exact H4|].
  exact (excess_slippage_sells_for_nothing Scenario.sell_eth 2000 12000 5 "uniswap_v2"
           H0 H1 H2 H3 H4).
Defined.

(** ** Proposals fed to the simulator *)

Module PipelineFacts.
Import Simulator SimulatorSpec SimulatorFacts.

Lemma proposals_priced targets balances prices threshold_pct min_trade_usd trades :
  propose_rebalance_trades targets balances prices threshold_pct min_trade_usd
  = Ok trades ->
  forall tr, In tr (map of_proposal trades) -> priced prices tr = true.
Proof.
  intros Htr tr Hin. apply in_map_iff in Hin as (p & Heq & Hp). subst tr.
  destruct (propose_rebalance_trades_spec targets balances prices threshold_pct
              min_trade_usd) as (m & trades' & _ & _ & Htr' & Hmem).
  assert (trades' = trades) as -> by congruence.
  apply list_elem_of_In in Hp. apply (proj1 (Hmem p)) in Hp.
  destruct Hp as (t & _ & _ & _ & Hprice & ->).
  apply priced_true. exact Hprice.
Qed.

Lemma simulate_proposals targets balances prices threshold_pct min_trade_usd trades
    slippage_bps gas_cost_usd dex :
  propose_rebalance_trades targets balances prices threshold_pct min_trade_usd
  = Ok trades ->
  sim_trades (simulate_trades (map of_proposal trades) prices slippage_bps
                              gas_cost_usd dex)
  = map (fun p => estimate prices slippage_bps gas_cost_usd dex (of_proposal p)) trades.
Proof.
  intros Htr.
  destruct (simulate_trades_spec (map of_proposal trades) prices slippage_bps
              gas_cost_usd dex) as (-> & _).
  rewrite (filter_all (priced prices)) by (by eapply proposals_priced).
  by rewrite List.map_map.
Qed.

End PipelineFacts.

Import PipelineFacts.



(** ** The executor *)

Module ExecutorFacts.
Import Alerts Executor.

Lemma execute_spec ex trades dry_run :
  execute ex trades dry_run
  = (map (fun tr => fst (execute_one ex dry_run tr)) trades,
     map (fun tr => snd (execute_one ex dry_run tr)) trades).
Proof.
  unfold execute.
  assert (Hgen : forall (results : list execution_result) (alerts : list alert_call),
    fold_left
      (fun '(results, alerts) tr =>
         let '(result, alert) := execute_one ex dry_run tr in
         (results ++ [result], alerts ++ [alert])%list)
      trades (results, alerts)
    = ((results ++ map (fun tr => fst (execute_one ex dry_run tr)) trades)%list,
       (alerts ++ map (fun tr => snd (execute_one ex dry_run tr)) trades)%list)).
  { induction trades as [|tr trades IH]; intros results alerts; simpl.
    - by rewrite !app_nil_r.
    - destruct (execute_one ex dry_run tr) as [result alert] eqn:E.
      rewrite IH. simpl. by rewrite <- !app_assoc. }
  apply Hgen.
Qed.

Lemma execute_one_result ex dry_run tr :
  let '(status, reason, tx_hash) := decide_status ex dry_run in
  fst (execute_one ex dry_run tr)
  = {| er_trade := tr; er_status := status; er_tx_hash := tx_hash;
       er_reason := reason |} /\
  al_wallet (snd (execute_one ex dry_run tr)) = ex_wallet_address ex /\
  al_event_type (snd (execute_one ex dry_run tr)) = "execution" /\
  al_alert_type (snd (execute_one ex dry_run tr)) = status.
Proof.
  unfold execute_one, decide_status.
  destruct dry_run; [by repeat split|].
  destruct (negb (Wallet.truthy_opt (ex_private_key ex))); by repeat split.
Qed.

Lemma execute_structure (ex : executor) (trades : list Tracker.proposal) (dry_run : bool) :
  map er_trade (fst (execute ex trades dry_run)) = trades /\
  map al_alert_type (snd (execute ex trades dry_run))
  = map er_status (fst (execute ex trades dry_run)) /\
  Forall (fun a => al_wallet a = ex_wallet_address ex /\ al_event_type a = "execution")
         (snd (execute ex trades dry_run)).
Proof.
  rewrite execute_spec. cbn [fst snd]. rewrite !List.map_map.
  split; [|split].
  - rewrite <- (List.map_id trades) at 2. apply map_ext. intros tr.
    pose proof (execute_one_result ex dry_run tr) as H.
    destruct (decide_status ex dry_run) as [[status reason] tx].
    destruct H as (-> & _). reflexivity.
  - apply map_ext. intros tr.
    pose proof (execute_one_result ex dry_run tr) as H.
    destruct (decide_status ex dry_run) as [[status reason] tx].
    destruct H as (-> & _ & _ & ->). reflexivity.
  - apply Forall_forall. intros a Ha.
    apply list_elem_of_In, in_map_iff in Ha as (tr & <- & _).
    pose proof (execute_one_result ex dry_run tr) as H.
    destruct (decide_status ex dry_run) as [[status reason] tx].
    destruct H as (_ & -> & -> & _). by split.
Qed.

Lemma execute_dry_run (ex : executor) (trades : list Tracker.proposal) :
  Forall (fun r => er_status r = "skipped" /\ er_reason r = Some "dry_run" /\
                   er_tx_hash r = None)
         (fst (execute ex trades true)) /\
  Forall (fun a => al_alert_type a = "skipped") (snd (execute ex trades true)).
Proof.
  rewrite execute_spec. cbn [fst snd]. split.
  - apply Forall_forall. intros r Hr.
    apply list_elem_of_In, in_map_iff in Hr as (tr & <- & _). by repeat split.
  - apply Forall_forall. intros a Ha.
    apply list_elem_of_In, in_map_iff in Ha as (tr & <- & _). reflexivity.
Qed.

End ExecutorFacts.

Import Alerts Executor ExecutorFacts.

(** X18.  [execute] returns one result per trade, in order, each holding
    its trade unchanged, and sends one alert per trade for the executor's
    wallet, whose type is the status of that trade's result. *)
Theorem execute_one_result_per_trade
    (ex : executor) (trades : list proposal) (dry_run : bool) :
  let results := fst (execute ex trades dry_run) in
  let alerts := snd (execute ex trades dry_run) in
  map er_trade results = trades /\
  map al_alert_type alerts = map er_status results /\
  Forall (fun a => al_wallet a = ex_wallet_address ex /\ al_event_type a = "execution")
         alerts.
Proof. cbv zeta. apply execute_structure. Qed.

(** X19.  In a dry run nothing is executed, with or without a private key:
    every result is "skipped" with reason "dry_run" and no transaction hash,
    and every alert is of type "skipped". *)
Theorem dry_run_executes_nothing (ex : executor) (trades : list proposal) :
  Forall (fun r => er_status r = "skipped" /\ er_reason r = Some "dry_run" /\
                   er_tx_hash r = None)
         (fst (execute ex trades true)) /\
  Forall (fun a => al_alert_type a = "skipped") (snd (execute ex trades true)).
Proof. apply execute_dry_run. Qed.

(** X20.  A result is "success" exactly when the run is live and
    PRIVATE_KEY is set to a non-empty value; otherwise it is "skipped".  A
    transaction hash is reported for the successes and for nothing else, a
    reason for the skipped ones and for nothing else; live without a key,
    the reason is "missing PRIVATE_KEY". *)
Theorem execute_status (ex : executor) (trades : list proposal) (dry_run : bool) :
  Forall
    (fun r =>
       (er_status r = "success" <->
        dry_run = false /\ exists k, ex_private_key ex = Some k /\ k <> "") /\
       (er_status r = "success" \/ er_status r = "skipped") /\
       (is_Some (er_tx_hash r) <-> er_status r = "success") /\
       (er_reason r = None <-> er_status r = "success") /\
       (dry_run = false -> er_status r = "skipped" ->
        er_reason r = Some "missing PRIVATE_KEY"))
    (fst (execute ex trades dry_run)).
Proof.
  apply Forall_forall.
  intros r Hr. rewrite execute_spec in Hr. cbn [fst] in Hr.
  apply list_elem_of_In, in_map_iff in Hr as (tr & <- & _).
  pose proof (execute_one_result ex dry_run tr) as H.
  unfold decide_status in H. destruct dry_run.
  { destruct H as (-> & _). cbn [er_status er_tx_hash er_reason].
    split; [split; [discriminate | intros [? _]; discriminate]|].
    split; [by right|].
    split; [split; [intros [? ?]; discriminate | discriminate]|].
    split; [split; discriminate | discriminate]. }
  destruct (Wallet.truthy_opt (ex_private_key ex)) eqn:Ek; cbn [negb] in H;
    destruct H as (-> & _); cbn [er_status er_tx_hash er_reason].
  - apply truthy_opt_true in Ek.
    split; [split; [by intros _ | reflexivity]|].
    split; [by left|].
    split; [split; [reflexivity | by eexists]|].
    split; [split; reflexivity | discriminate].
  - split.
    { split; [discriminate|]. intros [_ Hk]. apply truthy_opt_true in Hk. congruence. }
    split; [by right|].
    split; [split; [intros [? ?]; discriminate | discriminate]|].
    split; [split; discriminate | reflexivity].
Qed.

(** ** The scheduler *)

Import Scheduler.

(** X21.  As the fetchers are placeholders that report 0 for every token,
    [run_once] never gets as far as the executor: for every config it
    records a portfolio worth 0, proposes no trade, stores a "skipped",
    non-viable simulation with an all-zero summary and ends with the skipped
    alert. *)
Theorem run_once_never_trades
    (cfg : Config.config) (dry_run : bool)
    (session_provider : option (nat -> provider_outcome))
    (environ : gmap string string) :
  exists (r : run) (alert : alert_call),
    run_once cfg dry_run session_provider environ = Ok r /\
    run_total_value r == 0 /\
    run_outcome r = Skipped alert /\
    al_event_type alert = "simulation" /\ al_alert_type alert = "skipped" /\
    sd_trades (run_doc r) = [] /\
    sd_status (run_doc r) = "skipped" /\
    sd_viable (run_doc r) = false /\
    Simulator.total_buy_cost_usd (sd_summary (run_doc r)) == 0 /\
    Simulator.total_sell_proceeds_usd (sd_summary (run_doc r)) == 0 /\
    Simulator.net_usd_effect (sd_summary (run_doc r)) == 0 /\
    Simulator.est_total_gas_usd (sd_summary (run_doc r)) == 0.
Proof.
  unfold run_once, run_cycle.
  set (tokens := keys (default [] (cfg_targets cfg))).
  set (wallet := resolve_wallet_address cfg _ environ).
  rewrite (propose_nil_of_nonpositive (default [] (cfg_targets cfg))
             (fetch_balances wallet tokens) _ _ _).
  2:{ unfold fetch_balances.
      pose proof (portfolio_value_zero_balances tokens
                    (fetch_prices tokens (default "USD" (cfg_base_currency cfg)))). lra. }
  cbn [Py.bind map]. do 2 eexists. split; [reflexivity|].
  cbn [run_total_value run_outcome run_doc sd_trades sd_status sd_viable sd_summary].
  split; [apply (portfolio_value_zero_balances tokens)|].
  split; [reflexivity|]. repeat (split; [reflexivity|]). reflexivity.
Qed.

(** X22.  One cycle on given balances and prices: the stored total is the
    portfolio value and the stored trades are the proposals; with no
    proposal the cycle is recorded as "skipped", not viable, with a reason,
    and ends with the skipped alert; with at least one it is recorded as
    "proposed", viable, without reason, and the executor is run on exactly
    the proposals. *)
Theorem run_cycle_outcome
    (cfg : Config.config) (dry_run : bool) (session_provider : option provider_outcome)
    (environ : gmap string string) (tokens : list string) (prices : gmap string Q)
    (wallet_address : string) (balances : gmap string Q) :
  exists (trades : list proposal) (r : run),
    propose_rebalance_trades (default [] (cfg_targets cfg)) balances prices
      (Config.threshold cfg Config.th_rebalance_threshold_pct (5 # 2))
      (Config.threshold cfg Config.th_min_trade_usd 100) = Ok trades /\
    run_cycle cfg dry_run session_provider environ tokens prices wallet_address balances
    = Ok r /\
    run_total_value r = compute_portfolio_value balances prices /\
    sd_trades (run_doc r) = trades /\
    sd_wallet (run_doc r) = wallet_address /\
    (trades = [] ->
     sd_status (run_doc r) = "skipped" /\ sd_viable (run_doc r) = false /\
     is_Some (sd_reason (run_doc r)) /\
     exists alert, run_outcome r = Skipped alert /\ al_wallet alert = wallet_address) /\
    (trades <> [] ->
     sd_status (run_doc r) = "proposed" /\ sd_viable (run_doc r) = true /\
     sd_reason (run_doc r) = None /\
     exists results alerts,
       run_outcome r = Executed results alerts /\ map er_trade results = trades).
Proof.
  destruct (propose_rebalance_trades_spec (default [] (cfg_targets cfg)) balances prices
              (Config.threshold cfg Config.th_rebalance_threshold_pct (5 # 2))
              (Config.threshold cfg Config.th_min_trade_usd 100))
    as (m & trades & _ & _ & Htr & _).
  exists trades. unfold run_cycle. rewrite Htr. cbn [Py.bind].
  destruct trades as [|p trades].
  - eexists. split; [reflexivity|]. split; [reflexivity|].
    cbn [run_total_value run_doc run_outcome sd_trades sd_wallet sd_status sd_viable
         sd_reason].
    split; [reflexivity|]. split; [reflexivity|]. split; [reflexivity|]. split.
    + intros _. split; [reflexivity|]. split; [reflexivity|]. split; [by eexists|].
      eexists. split; reflexivity.
    + intros H. contradiction.
  - pose proof (execute_structure
                  (Executor.init cfg session_provider environ) (p :: trades) dry_run)
      as (Hmap & _).
    destruct (execute (Executor.init cfg session_provider environ) (p :: trades) dry_run)
      as [results alerts].
    eexists. split; [reflexivity|]. split; [reflexivity|].
    cbn [run_total_value run_doc run_outcome sd_trades sd_wallet sd_status sd_viable
         sd_reason negb].
    split; [reflexivity|]. split; [reflexivity|]. split; [reflexivity|]. split.
    + intros H. discriminate H.
    + intros _. split; [reflexivity|]. split; [reflexivity|]. split; [reflexivity|].
      exists results, alerts. split; [reflexivity | exact Hmap].
Qed.

(** X23.  A dry-run cycle never reports an executed trade: whenever it
    reaches the executor, every result is "skipped" with reason "dry_run"
    and no transaction hash, and no alert is of type "success". *)
Theorem dry_run_cycle_is_safe
    (cfg : Config.config) (session_provider : option provider_outcome)
    (environ : gmap string string) (tokens : list string) (prices : gmap string Q)
    (wallet_address : string) (balances : gmap string Q) :
  exists r : run,
    run_cycle cfg true session_provider environ tokens prices wallet_address balances
    = Ok r /\
    match run_outcome r with
    | Skipped alert => al_alert_type alert = "skipped"
    | Executed results alerts =>
      Forall (fun x => er_status x = "skipped" /\ er_reason x = Some "dry_run" /\
                       er_tx_hash x = None) results /\
      Forall (fun a => al_alert_type a = "skipped") alerts
    end.
Proof.
  destruct (propose_rebalance_trades_spec (default [] (cfg_targets cfg)) balances prices
              (Config.threshold cfg Config.th_rebalance_threshold_pct (5 # 2))
              (Config.threshold cfg Config.th_min_trade_usd 100))
    as (m & trades & _ & _ & Htr & _).
  unfold run_cycle. rewrite Htr. cbn [Py.bind].
  destruct trades as [|p trades].
  - eexists. split; reflexivity.
  - pose proof (execute_dry_run
                  (Executor.init cfg session_provider environ) (p :: trades)) as H.
    destruct (execute (Executor.init cfg session_provider environ) (p :: trades) true)
      as [results alerts].
    eexists. split; [reflexivity|]. exact H.
Qed.
